(** * Console assistant: contact records, notes, pagination, birthdays

    A shallow embedding of [console_assistant/maindz.py] and
    [console_assistant/dop2.py], and the properties of the validated
    fields, the record mutations, the note store, the pagination cursor,
    the directory search, the persistence snapshot and the
    upcoming-birthday query.

    Conventions of the embedding.
    - A Python [str] is a [string]; each [ascii] is the Unicode code point
      of the same number, so the strings covered are those of code points
      0..255 (Latin-1).  The character predicates below ([isdigit],
      [lower], whitespace, the classes of the regular expressions) are
      the Python ones restricted to that range.
    - A Python [int] is a [Z].
    - A call that may raise returns a [result]: [Ok v] or [Raise e].
    - A [dict] is an association list in insertion order with distinct
      keys; a Python [list] is a [list].
    - [print] appends a line to an explicit list of output lines. *)

From Stdlib Require Import ZArith List String Ascii Bool Lia Arith.
From Stdlib Require Import DecimalString.
Import ListNotations.

Open Scope string_scope.
Open Scope Z_scope.

(** ** Exceptions and results *)

Inductive exception : Type :=
| ValueError (msg : string)
| TypeError
| AttributeError
| IndexError
| StopIteration.

Inductive result (A : Type) : Type :=
| Ok (a : A)
| Raise (e : exception).

Arguments Ok {A} a.
Arguments Raise {A} e.

Definition bind {A B : Type} (r : result A) (k : A -> result B) : result B :=
  match r with
  | Ok a => k a
  | Raise e => Raise e
  end.

Notation "x <- r ;; k" := (bind r (fun x => k))
  (at level 61, r at next level, right associativity).

Definition is_ValueError (e : exception) : bool :=
  match e with ValueError _ => true | _ => false end.

(** ** Python strings over code points 0..255 *)

Module Py.

Definition code (c : ascii) : Z := Z.of_nat (nat_of_ascii c).

Definition len (s : string) : Z := Z.of_nat (String.length s).

Definition between (lo hi : Z) (c : ascii) : bool :=
  (lo <=? code c) && (code c <=? hi).

(** The ASCII decimal digits [0-9]. *)
Definition is_ascii_digit (c : ascii) : bool := between 48 57 c.

(** [str.isdigit] on one character: the decimal digits and the
    superscript digits U+00B2, U+00B3 and U+00B9. *)
Definition isdigit_char (c : ascii) : bool :=
  is_ascii_digit c || (code c =? 178) || (code c =? 179) || (code c =? 185).

Fixpoint all_chars (p : ascii -> bool) (s : string) : bool :=
  match s with
  | EmptyString => true
  | String c s' => p c && all_chars p s'
  end.

(** [s.isdigit()]: at least one character and all of them digits. *)
Definition isdigit (s : string) : bool :=
  match s with
  | EmptyString => false
  | _ => all_chars isdigit_char s
  end.

(** [str.lower] on one character: [A-Z] and the upper-case letters
    U+00C0..U+00DE (U+00D7 is the multiplication sign) move by 32. *)
Definition lower_char (c : ascii) : ascii :=
  if between 65 90 c || (between 192 222 c && negb (code c =? 215))
  then ascii_of_nat (nat_of_ascii c + 32)
  else c.

Fixpoint lower (s : string) : string :=
  match s with
  | EmptyString => EmptyString
  | String c s' => String (lower_char c) (lower s')
  end.

(** [sub in s]. *)
Fixpoint contains (sub s : string) : bool :=
  String.prefix sub s ||
  match s with
  | EmptyString => false
  | String _ s' => contains sub s'
  end.

(** The whitespace that [int()] skips around a literal: the ASCII
    characters tab to carriage return and the space, and the spaces
    U+0085 and U+00A0, which it first turns into a space.  (The
    separators U+001C..U+001F are whitespace for [str.strip], not for
    [int()].) *)
Definition isspace_char (c : ascii) : bool :=
  between 9 13 c || (code c =? 32) || (code c =? 133) || (code c =? 160).

Fixpoint lstrip (s : string) : string :=
  match s with
  | String c s' => if isspace_char c then lstrip s' else s
  | EmptyString => EmptyString
  end.

Fixpoint rev_string (acc s : string) : string :=
  match s with
  | EmptyString => acc
  | String c s' => rev_string (String c acc) s'
  end.

Definition strip (s : string) : string :=
  rev_string EmptyString (lstrip (rev_string EmptyString (lstrip s))).

Definition digit_val (c : ascii) : Z := code c - 48.

(** The digits of a base-10 literal: digits with single underscores
    between them.  [prev] tells whether the previous character was a
    digit (an underscore needs a digit on both sides).  The result is
    the value and the number of digits read. *)
Fixpoint int_digits (acc digits : Z) (prev : bool) (s : string) : option (Z * Z) :=
  match s with
  | EmptyString => if prev then Some (acc, digits) else None
  | String c s' =>
      if is_ascii_digit c
      then int_digits (10 * acc + digit_val c) (digits + 1) true s'
      else if Ascii.eqb c "_" then
        if prev then
          match s' with
          | String d _ =>
              if is_ascii_digit d then int_digits acc digits false s' else None
          | EmptyString => None
          end
        else None
      else None
  end.

(** The limit of [int()] on the number of digits of a literal
    ([sys.int_info.default_max_str_digits]). *)
Definition max_str_digits : Z := 4300.

(** The literal after the sign. *)
Definition int_literal (negative : bool) (s : string) : result Z :=
  match int_digits 0 0 false s with
  | Some (n, digits) =>
      if max_str_digits <? digits
      then Raise (ValueError
                    "Exceeds the limit (4300 digits) for integer string conversion")
      else Ok (if negative then - n else n)
  | None => Raise (ValueError "invalid literal for int() with base 10")
  end.

(** [int(s)] for a string argument, base 10. *)
Definition int (s : string) : result Z :=
  match strip s with
  | EmptyString => Raise (ValueError "invalid literal for int() with base 10")
  | String c s' =>
      if Ascii.eqb c "-" then int_literal true s'
      else if Ascii.eqb c "+" then int_literal false s'
      else int_literal false (String c s')
  end.

(** [str(n)] for an [int]. *)
Definition str_of_int (n : Z) : string := NilZero.string_of_int (Z.to_int n).

(** [sep.join(l)]. *)
Fixpoint join (sep : string) (l : list string) : string :=
  match l with
  | [] => EmptyString
  | [x] => x
  | x :: l' => x ++ sep ++ join sep l'
  end.

(** [l[start:end]] with Python's clamping of the bounds. *)
Definition clamp (n : Z) (i : Z) : Z :=
  if i <? 0 then Z.max (i + n) 0 else Z.min i n.

Definition slice {A : Type} (l : list A) (start stop : Z) : list A :=
  let n := Z.of_nat (List.length l) in
  let a := clamp n start in
  let b := clamp n stop in
  firstn (Z.to_nat (b - a)) (skipn (Z.to_nat a) l).

End Py.

(** ** The pieces of Python's [datetime] module the program uses *)

Module Datetime.

Record datetime : Type := mk_datetime {
  year : Z; month : Z; day : Z;
  hour : Z; minute : Z; second : Z; microsecond : Z
}.

(** A [datetime.date]. *)
Record date : Type := mk_date { date_year : Z; date_month : Z; date_day : Z }.

Definition _is_leap (y : Z) : bool :=
  (y mod 4 =? 0) && (negb (y mod 100 =? 0) || (y mod 400 =? 0)).

Definition _DAYS_IN_MONTH (m : Z) : Z :=
  match m with
  | 1 => 31 | 2 => 28 | 3 => 31 | 4 => 30 | 5 => 31 | 6 => 30
  | 7 => 31 | 8 => 31 | 9 => 30 | 10 => 31 | 11 => 30 | 12 => 31
  | _ => 0
  end.

Definition _DAYS_BEFORE_MONTH (m : Z) : Z :=
  match m with
  | 1 => 0 | 2 => 31 | 3 => 59 | 4 => 90 | 5 => 120 | 6 => 151
  | 7 => 181 | 8 => 212 | 9 => 243 | 10 => 273 | 11 => 304 | 12 => 334
  | _ => 0
  end.

Definition _days_before_year (y : Z) : Z :=
  let y' := y - 1 in y' * 365 + y' / 4 - y' / 100 + y' / 400.

Definition _days_in_month (y m : Z) : Z :=
  if (m =? 2) && _is_leap y then 29 else _DAYS_IN_MONTH m.

Definition _days_before_month (y m : Z) : Z :=
  _DAYS_BEFORE_MONTH m + (if (2 <? m) && _is_leap y then 1 else 0).

Definition _ymd2ord (y m d : Z) : Z :=
  _days_before_year y + _days_before_month y m + d.

Definition MINYEAR : Z := 1.
Definition MAXYEAR : Z := 9999.

Definition _check_date_fields (y m d : Z) : bool :=
  (MINYEAR <=? y) && (y <=? MAXYEAR) && (1 <=? m) && (m <=? 12) &&
  (1 <=? d) && (d <=? _days_in_month y m).

(** The message of the first check of the date fields that fails. *)
Definition date_error (y m d : Z) : string :=
  if negb ((MINYEAR <=? y) && (y <=? MAXYEAR))
  then "year " ++ Py.str_of_int y ++ " is out of range"
  else if negb ((1 <=? m) && (m <=? 12)) then "month must be in 1..12"
  else "day is out of range for month".

(** [datetime(year, month, day)]: midnight of that day, or [ValueError]. *)
Definition new (y m d : Z) : result datetime :=
  if _check_date_fields y m d then Ok (mk_datetime y m d 0 0 0 0)
  else Raise (ValueError (date_error y m d)).

(** [dt.date()]. *)
Definition to_date (dt : datetime) : date :=
  mk_date (year dt) (month dt) (day dt).

Definition toordinal (dt : datetime) : Z :=
  _ymd2ord (year dt) (month dt) (day dt).

(** Microseconds since midnight of day 0 of the proleptic calendar. *)
Definition to_microseconds (dt : datetime) : Z :=
  ((toordinal dt * 86400
    + (hour dt * 3600 + minute dt * 60 + second dt)) * 1000000)
  + microsecond dt.

(** The comparison of two tuples of integers. *)
Fixpoint _cmp (a b : list Z) : comparison :=
  match a, b with
  | [], [] => Eq
  | [], _ :: _ => Lt
  | _ :: _, [] => Gt
  | x :: a', y :: b' =>
      match x ?= y with
      | Eq => _cmp a' b'
      | c => c
      end
  end.

Definition fields (dt : datetime) : list Z :=
  [year dt; month dt; day dt; hour dt; minute dt; second dt; microsecond dt].

(** [a < b] on naive datetimes. *)
Definition lt (a b : datetime) : bool :=
  match _cmp (fields a) (fields b) with
  | Lt => true
  | _ => false
  end.

(** A normalised [timedelta]: [0 <= seconds < 86400] and
    [0 <= microseconds < 1000000]; [days] takes the floor. *)
Record timedelta : Type := mk_timedelta {
  days : Z; seconds : Z; microseconds : Z
}.

Definition timedelta_of_microseconds (us : Z) : timedelta :=
  mk_timedelta (us / 86400000000)
               ((us mod 86400000000) / 1000000)
               (us mod 1000000).

(** [a - b]. *)
Definition sub (a b : datetime) : timedelta :=
  timedelta_of_microseconds (to_microseconds a - to_microseconds b).

(** One alternative of a regular expression of [_strptime]: the value
    it reads and the rest of the input. *)
Definition alt2 (p1 p2 : ascii -> bool) (s : string) : list (Z * string) :=
  match s with
  | String c1 (String c2 rest) =>
      if p1 c1 && p2 c2
      then [(10 * Py.digit_val c1 + Py.digit_val c2, rest)] else []
  | _ => []
  end.

Definition alt1 (p : ascii -> bool) (s : string) : list (Z * string) :=
  match s with
  | String c rest => if p c then [(Py.digit_val c, rest)] else []
  | _ => []
  end.

(** [%m]: [1[0-2]|0[1-9]|[1-9]], the alternatives in their order. *)
Definition directive_m (s : string) : list (Z * string) :=
  alt2 (Py.between 49 49) (Py.between 48 50) s
  ++ alt2 (Py.between 48 48) (Py.between 49 57) s
  ++ alt1 (Py.between 49 57) s.

(** [%d]: [3[0-1]|[1-2]\d|0[1-9]|[1-9]| [1-9]]. *)
Definition directive_d (s : string) : list (Z * string) :=
  alt2 (Py.between 51 51) (Py.between 48 49) s
  ++ alt2 (Py.between 49 50) Py.is_ascii_digit s
  ++ alt2 (Py.between 48 48) (Py.between 49 57) s
  ++ alt1 (Py.between 49 57) s
  ++ match s with
     | String c rest =>
         if Ascii.eqb c " " then alt1 (Py.between 49 57) rest else []
     | _ => []
     end.

(** [%Y]: four digits. *)
Definition directive_Y (s : string) : list (Z * string) :=
  match s with
  | String c1 (String c2 (String c3 (String c4 rest))) =>
      if Py.is_ascii_digit c1 && Py.is_ascii_digit c2
         && Py.is_ascii_digit c3 && Py.is_ascii_digit c4
      then [(1000 * Py.digit_val c1 + 100 * Py.digit_val c2
             + 10 * Py.digit_val c3 + Py.digit_val c4, rest)]
      else []
  | _ => []
  end.

Definition expect (c : ascii) (s : string) : list string :=
  match s with
  | String d rest => if Ascii.eqb c d then [rest] else []
  | _ => []
  end.

(** The matches of the compiled format [%Y-%m-%d] at the start of the
    input, in the order a backtracking matcher finds them. *)
Definition format_regex_match (s : string) : list (Z * Z * Z * string) :=
  flat_map (fun '(y, s1) =>
    flat_map (fun s2 =>
      flat_map (fun '(m, s3) =>
        flat_map (fun s4 =>
          map (fun '(d, s5) => (y, m, d, s5)) (directive_d s4))
          (expect "-" s3))
        (directive_m s2))
      (expect "-" s1))
    (directive_Y s).

(** [datetime.strptime(data_string, "%Y-%m-%d")]. *)
Definition strptime_Ymd (data_string : string) : result datetime :=
  match format_regex_match data_string with
  | [] => Raise (ValueError "time data does not match format")
  | (y, m, d, rest) :: _ =>
      match rest with
      | EmptyString => new y m d
      | _ => Raise (ValueError "unconverted data remains")
      end
  end.

Fixpoint zfill (width : nat) (s : string) : string :=
  match width with
  | O => s
  | S w => if Nat.ltb (String.length s) width then zfill w ("0" ++ s) else s
  end.

(** [d.strftime("%Y-%m-%d")] for a date within [MINYEAR..MAXYEAR], as
    the [strftime] of the C library of Linux gives it: the month and the
    day with two digits, the year without padding. *)
Definition strftime_Ymd (y m d : Z) : string :=
  Py.str_of_int y ++ "-" ++ zfill 2 (Py.str_of_int m)
  ++ "-" ++ zfill 2 (Py.str_of_int d).

End Datetime.

(** ** The pieces of Python's [re] module the program uses *)

Module Re.

(** An item of a character set: a range [lo-hi] or one character. *)
Inductive item : Type :=
| Range (lo hi : ascii)
| Lit (c : ascii).

Definition in_item (c : ascii) (i : item) : bool :=
  match i with
  | Range lo hi => Py.between (Py.code lo) (Py.code hi) c
  | Lit d => Ascii.eqb c d
  end.

Definition in_set (items : list item) (c : ascii) : bool :=
  existsb (in_item c) items.

(** The patterns the program writes: sets, concatenation, [+] and
    [{2,}]. *)
Inductive pattern : Type :=
| Set_ (items : list item)
| Seq (p q : pattern)
| Plus (p : pattern)
| AtLeast2 (p : pattern).

(** Regular expressions with character predicates. *)
Inductive regex : Type :=
| Void
| Eps
| Class (p : ascii -> bool)
| Cat (r1 r2 : regex)
| Alt (r1 r2 : regex)
| Star (r : regex).

(** Compilation.  With [IGNORECASE] a set of lower-case items is tried
    on the lower-case form of the character. *)
Fixpoint compile (ignorecase : bool) (p : pattern) : regex :=
  match p with
  | Set_ items =>
      Class (fun c => in_set items (if ignorecase then Py.lower_char c else c))
  | Seq p q => Cat (compile ignorecase p) (compile ignorecase q)
  | Plus p => let r := compile ignorecase p in Cat r (Star r)
  | AtLeast2 p => let r := compile ignorecase p in Cat r (Cat r (Star r))
  end.

Fixpoint nullable (r : regex) : bool :=
  match r with
  | Void => false
  | Eps => true
  | Class _ => false
  | Cat r1 r2 => nullable r1 && nullable r2
  | Alt r1 r2 => nullable r1 || nullable r2
  | Star _ => true
  end.

(** The derivative of [r] by the character [c]. *)
Fixpoint deriv (c : ascii) (r : regex) : regex :=
  match r with
  | Void => Void
  | Eps => Void
  | Class p => if p c then Eps else Void
  | Cat r1 r2 =>
      if nullable r1
      then Alt (Cat (deriv c r1) r2) (deriv c r2)
      else Cat (deriv c r1) r2
  | Alt r1 r2 => Alt (deriv c r1) (deriv c r2)
  | Star r1 => Cat (deriv c r1) (Star r1)
  end.

Fixpoint accepts (r : regex) (s : string) : bool :=
  match s with
  | EmptyString => nullable r
  | String c s' => accepts (deriv c r) s'
  end.

(** [fullmatch(pattern, string, flags) is not None]. *)
Definition fullmatch (p : pattern) (s : string) (ignorecase : bool) : bool :=
  accepts (compile ignorecase p) s.

(** The strings of a regular expression. *)
Inductive matches : regex -> string -> Prop :=
| MEps : matches Eps EmptyString
| MClass p c : p c = true -> matches (Class p) (String c EmptyString)
| MCat r1 r2 s1 s2 :
    matches r1 s1 -> matches r2 s2 -> matches (Cat r1 r2) (s1 ++ s2)
| MAltL r1 r2 s : matches r1 s -> matches (Alt r1 r2) s
| MAltR r1 r2 s : matches r2 s -> matches (Alt r1 r2) s
| MStar0 r : matches (Star r) EmptyString
| MStarS r s1 s2 :
    matches r s1 -> matches (Star r) s2 -> matches (Star r) (s1 ++ s2).

End Re.

(** ** [dop2.py] *)

Module dop2.

(** [EMAIL_REGULAR = r"[a-z][a-z0-9_.]+[@][a-z.]+[.][a-z]{2,}"] *)
Definition EMAIL_REGULAR : Re.pattern :=
  Re.Seq (Re.Set_ [Re.Range "a" "z"])
  (Re.Seq (Re.Plus (Re.Set_ [Re.Range "a" "z"; Re.Range "0" "9";
                              Re.Lit "_"; Re.Lit "."]))
  (Re.Seq (Re.Set_ [Re.Lit "@"])
  (Re.Seq (Re.Plus (Re.Set_ [Re.Range "a" "z"; Re.Lit "."]))
  (Re.Seq (Re.Set_ [Re.Lit "."])
          (Re.AtLeast2 (Re.Set_ [Re.Range "a" "z"])))))).

(** class [Phone(Field)] *)
Record Phone : Type := mk_Phone { Phone_value : string }.

Definition Phone_is_valid_phone (value : string) : bool :=
  (Py.len value =? 10) && Py.isdigit value.

Definition Phone__init__ (value : string) : result Phone :=
  if negb (Phone_is_valid_phone value)
  then Raise (ValueError "Invalid phone number format")
  else Ok (mk_Phone value).

(** class [Email(Field)] *)
Record Email : Type := mk_Email { Email_value : string }.

Definition Email_is_valid_email (value : string) : bool :=
  Re.fullmatch EMAIL_REGULAR value true.

(** The setter of the property [Email.value]. *)
Definition Email_value_setter (self : Email) (new_value : string) : result Email :=
  if negb (Email_is_valid_email new_value)
  then Raise (ValueError "Invalid email format")
  else Ok (mk_Email new_value).

(** [Email.__init__]: the check, then [Field.__init__], whose assignment
    goes through the setter. *)
Definition Email__init__ (value : string) : result Email :=
  if negb (Email_is_valid_email value)
  then Raise (ValueError "Invalid email format")
  else Email_value_setter (mk_Email value) value.

(** The attribute [tags] of a note: absent (a note read from a file
    written before notes had tags), [None] (as [edit_note] leaves it by
    default) or a list. *)
Inductive tags_value : Type :=
| TagsAbsent
| TagsNone
| TagsList (l : list string).

(** class [Notes]; [text] is [None] after an [edit_note] without text. *)
Record Notes : Type := mk_Notes {
  text : option string; author : string; tags : tags_value
}.

(** [Notes.__init__]: [tags] is the list given, or [[]] for [None]. *)
Definition Notes__init__ (text author : string) (tags : option (list string)) : Notes :=
  mk_Notes (Some text) author
           (TagsList (match tags with Some t => t | None => [] end)).

(** [', '.join(self.tags) if hasattr(self, 'tags') else '']; joining
    [None] raises [TypeError]. *)
Definition tags_str (t : tags_value) : result string :=
  match t with
  | TagsAbsent => Ok EmptyString
  | TagsNone => Raise TypeError
  | TagsList l => Ok (Py.join ", " l)
  end.

(** [f"{self.text}"] *)
Definition text_str (t : option string) : string :=
  match t with
  | Some s => s
  | None => "None"
  end.

Definition Notes__str__ (self : Notes) : result string :=
  ts <- tags_str (tags self) ;;
  Ok (text_str (text self) ++ " (by " ++ author self ++ ", Tags: " ++ ts ++ ")").

(** class [NoteManager] *)
Record NoteManager : Type := mk_NoteManager { notes : list Notes }.

Definition NoteManager__init__ : NoteManager := mk_NoteManager [].

Definition add_note_with_tags (self : NoteManager) (author text : string)
  (tags : option (list string)) : NoteManager :=
  mk_NoteManager (notes self ++ [Notes__init__ text author tags])%list.

(** [l.pop(i)] for [0 <= i < len(l)]. *)
Definition pop {A : Type} (l : list A) (i : nat) : option (A * list A) :=
  match nth_error l i with
  | Some x => Some (x, (firstn i l ++ skipn (S i) l)%list)
  | None => None
  end.

(** What a call of [delete_note] leaves behind: the manager, the lines
    printed, and what the call returns ([None] is Python's [None]) or
    raises. *)
Record delete_outcome : Type := mk_outcome {
  manager : NoteManager;
  printed : list string;
  returned : result (option Notes)
}.

(** [delete_note]: the note is popped first, then formatted for the
    message; when the formatting raises, the note is gone and nothing
    is printed. *)
Definition delete_note (self : NoteManager) (index : Z) : delete_outcome :=
  if (1 <=? index) && (index <=? Z.of_nat (List.length (notes self))) then
    match pop (notes self) (Z.to_nat (index - 1)) with
    | Some (deleted_note, rest) =>
        match Notes__str__ deleted_note with
        | Ok shown =>
            mk_outcome (mk_NoteManager rest)
              ["Note " ++ Py.str_of_int index ++ " deleted: " ++ shown]
              (Ok None)
        | Raise e => mk_outcome (mk_NoteManager rest) [] (Raise e)
        end
    | None => mk_outcome self [] (Raise IndexError)
    end
  else
    mk_outcome self ["Invalid note index."] (Ok None).

(** The list with [f] applied to its element at [i]. *)
Fixpoint set_nth {A : Type} (l : list A) (i : nat) (f : A -> A) : list A :=
  match l, i with
  | [], _ => []
  | x :: l', O => f x :: l'
  | x :: l', S i' => x :: set_nth l' i' f
  end.

(** [edit_note]: the manager after the call and the line printed;
    [new_text] and [new_tags] are [None] when they are not given. *)
Definition edit_note (self : NoteManager) (index : Z)
  (new_text : option string) (new_tags : option (list string))
  : NoteManager * list string :=
  if (1 <=? index) && (index <=? Z.of_nat (List.length (notes self))) then
    (mk_NoteManager
       (set_nth (notes self) (Z.to_nat (index - 1))
          (fun note =>
             mk_Notes new_text (author note)
                      (match new_tags with
                       | Some l => TagsList l
                       | None => TagsNone
                       end))),
     ["Note " ++ Py.str_of_int index ++ " edited successfully."])
  else
    (self, ["Invalid note index."]).

(** [save_notes]: what [dump] writes to the file, a snapshot of
    [self.notes]. *)
Definition save_notes (self : NoteManager) : list Notes := notes self.

(** [load_notes]: [None] is the missing file. *)
Definition load_notes (self : NoteManager) (file : option (list Notes)) : NoteManager :=
  match file with
  | Some l => mk_NoteManager l
  | None => mk_NoteManager []
  end.

(** [update_notes_author]: the manager after the loop and the content
    of the file it saves. *)
Definition update_notes_author (self : NoteManager) (old_author new_author : string)
  : NoteManager * list Notes :=
  let self' :=
    mk_NoteManager
      (map (fun note =>
              if String.eqb (author note) old_author
              then mk_Notes (text note) new_author (tags note)
              else note)
           (notes self)) in
  (self', save_notes self').

End dop2.

(** ** [maindz.py]

    The classes [Field], [Name], [Phone], [Email], [Birthday], [Address],
    [Notes], [NoteManager] and [AddressBookIterator] that the module
    imports from [dop2] are defined again below the imports; the names
    the rest of the module uses are bound to these later definitions. *)

Module maindz.

(** class [Name(Field)] *)
Record Name : Type := mk_Name { Name_value : string }.

(** class [Phone(Field)] *)
Record Phone : Type := mk_Phone { Phone_value : string }.

Definition Phone_is_valid_phone (value : string) : bool :=
  (Py.len value =? 10) && Py.isdigit value.

Definition Phone__init__ (value : string) : result Phone :=
  if negb (Phone_is_valid_phone value)
  then Raise (ValueError "Invalid phone number format")
  else Ok (mk_Phone value).

(** class [Email(Field)] *)
Record Email : Type := mk_Email { Email_value : string }.

Definition Email_is_valid_email (value : string) : bool :=
  Py.contains "@" value.

Definition Email__init__ (value : string) : result Email :=
  if negb (Email_is_valid_email value)
  then Raise (ValueError "Invalid email format")
  else Ok (mk_Email value).

(** class [Birthday(Field)]: the value has passed
    [isinstance(value, datetime)]. *)
Record Birthday : Type := mk_Birthday { Birthday_value : Datetime.datetime }.

(** The objects that reach [Birthday(...)] or the attribute
    [Record.birthday]: a [datetime.date], a [datetime.datetime] or a
    [Birthday]. *)
Inductive pyobject : Type :=
| DateObject (d : Datetime.date)
| DatetimeObject (dt : Datetime.datetime)
| BirthdayObject (b : Birthday).

Definition Birthday__init__ (value : pyobject) : result Birthday :=
  match value with
  | DatetimeObject dt => Ok (mk_Birthday dt)
  | _ => Raise (ValueError "Invalid birthday format. Use a datetime object.")
  end.

(** [obj.month], [obj.day] and [obj.strftime('%Y-%m-%d')]: a [Birthday]
    has the attribute [value] only. *)
Definition getattr_month (obj : pyobject) : result Z :=
  match obj with
  | DateObject d => Ok (Datetime.date_month d)
  | DatetimeObject dt => Ok (Datetime.month dt)
  | BirthdayObject _ => Raise AttributeError
  end.

Definition getattr_day (obj : pyobject) : result Z :=
  match obj with
  | DateObject d => Ok (Datetime.date_day d)
  | DatetimeObject dt => Ok (Datetime.day dt)
  | BirthdayObject _ => Raise AttributeError
  end.

Definition call_strftime_Ymd (obj : pyobject) : result string :=
  match obj with
  | DateObject d =>
      Ok (Datetime.strftime_Ymd (Datetime.date_year d) (Datetime.date_month d)
                                (Datetime.date_day d))
  | DatetimeObject dt =>
      Ok (Datetime.strftime_Ymd (Datetime.year dt) (Datetime.month dt)
                                (Datetime.day dt))
  | BirthdayObject _ => Raise AttributeError
  end.

(** class [Address(Field)]; the value is [None] until it is set. *)
Record Address : Type := mk_Address { Address_value : option string }.

(** class [Notes] *)
Record Notes : Type := mk_Notes { text : string }.

Definition Notes__str__ (self : Notes) : string := text self.

(** class [NoteManager] *)
Record NoteManager : Type := mk_NoteManager { NoteManager_notes : list Notes }.

Definition NoteManager__init__ : NoteManager := mk_NoteManager [].

Definition NoteManager_add_note (self : NoteManager) (text : string) : NoteManager :=
  mk_NoteManager (NoteManager_notes self ++ [mk_Notes text])%list.

(** class [Record] *)
Record Record_ : Type := mk_Record {
  name : Name;
  phones : list Phone;
  email : option Email;
  birthday : option pyobject;
  address : Address;
  notes : list Notes
}.

Definition Record__init__ (name : string) : Record_ :=
  mk_Record (mk_Name name) [] None None (mk_Address None) [].

Definition set_phones (self : Record_) (ps : list Phone) : Record_ :=
  mk_Record (name self) ps (email self) (birthday self) (address self) (notes self).

Definition set_email (self : Record_) (e : option Email) : Record_ :=
  mk_Record (name self) (phones self) e (birthday self) (address self) (notes self).

Definition set_birthday_attr (self : Record_) (b : option pyobject) : Record_ :=
  mk_Record (name self) (phones self) (email self) b (address self) (notes self).

Definition add_phone (self : Record_) (phone : string) : result Record_ :=
  phone <- Phone__init__ phone ;;
  Ok (set_phones self (phones self ++ [phone])%list).

Definition add_email (self : Record_) (email : string) : result Record_ :=
  email <- Email__init__ email ;;
  Ok (set_email self (Some email)).

(** The loop of [edit_phone]: the first phone whose value equals
    [old_phone] gets the value [new_phone]; [None] when the loop ends
    with [found = False]. *)
Fixpoint edit_phone_loop (ps : list Phone) (old_phone new_phone : string)
  : option (list Phone) :=
  match ps with
  | [] => None
  | phone :: rest =>
      if String.eqb (Phone_value phone) old_phone
      then Some (mk_Phone new_phone :: rest)
      else option_map (cons phone) (edit_phone_loop rest old_phone new_phone)
  end.

Definition edit_phone (self : Record_) (old_phone new_phone : string) : result Record_ :=
  match edit_phone_loop (phones self) old_phone new_phone with
  | Some ps => Ok (set_phones self ps)
  | None =>
      Raise (ValueError ("Phone " ++ old_phone ++ " not found in the record"))
  end.

Definition edit_email (self : Record_) (new_email : string) : result Record_ :=
  if negb (Email_is_valid_email new_email)
  then Raise (ValueError "Invalid email format")
  else
    match email self with
    | Some _ => Ok (set_email self (Some (mk_Email new_email)))
    | None => Raise AttributeError
    end.

(** [set_birthday]: the body of the [try] and the handler, which turns
    a [ValueError] into another [ValueError]. *)
Definition set_birthday (self : Record_) (birthday : string) : result Record_ :=
  let body :=
    dt <- Datetime.strptime_Ymd birthday ;;
    let birthday_datetime := DateObject (Datetime.to_date dt) in
    b <- Birthday__init__ birthday_datetime ;;
    Ok (set_birthday_attr self (Some (BirthdayObject b))) in
  match body with
  | Raise (ValueError _) =>
      Raise (ValueError "Invalid birthday date format. Use YYYY-MM-DD.")
  | r => r
  end.

Definition set_address (self : Record_) (address : string) : Record_ :=
  mk_Record (name self) (phones self) (email self) (birthday self)
            (mk_Address (Some address)) (notes self).

Definition newline : string := String "010" EmptyString.

Fixpoint enumerate_notes (i : Z) (l : list Notes) : string :=
  match l with
  | [] => EmptyString
  | note :: rest =>
      Py.str_of_int i ++ "." ++ Notes__str__ note ++ newline
      ++ enumerate_notes (i + 1) rest
  end.

(** [Record.__str__]; an [Address] object is always true. *)
Definition Record__str__ (self : Record_) : result string :=
  let contact_info := "Contact name: " ++ Name_value (name self) in
  let contact_info :=
    match phones self with
    | [] => contact_info
    | _ => contact_info ++ ", phones: "
           ++ Py.join "; " (map Phone_value (phones self))
    end in
  let contact_info :=
    match email self with
    | Some e => contact_info ++ ", email: " ++ Email_value e
    | None => contact_info
    end in
  contact_info <-
    match birthday self with
    | Some b =>
        d <- call_strftime_Ymd b ;;
        Ok (contact_info ++ ", birthday: " ++ d)
    | None => Ok contact_info
    end ;;
  let contact_info :=
    contact_info ++ ", address: "
    ++ match Address_value (address self) with
       | Some a => a
       | None => "None"
       end in
  let contact_info :=
    match notes self with
    | [] => contact_info
    | _ => contact_info ++ " " ++ newline ++ "Notes: " ++ newline ++ " "
           ++ enumerate_notes 1 (notes self)
    end in
  Ok contact_info.

(** class [AddressBook(UserDict)] *)
Record AddressBook : Type := mk_AddressBook {
  data : list (string * Record_);
  notes_manager : NoteManager
}.

Definition AddressBook__init__ : AddressBook :=
  mk_AddressBook [] NoteManager__init__.

Definition values (self : AddressBook) : list Record_ := map snd (data self).

Definition keys (self : AddressBook) : list string := map fst (data self).

Fixpoint dict_get (d : list (string * Record_)) (key : string) : option Record_ :=
  match d with
  | [] => None
  | (k, v) :: rest => if String.eqb k key then Some v else dict_get rest key
  end.

(** [d[key] = v]: an existing key keeps its place. *)
Fixpoint dict_set (d : list (string * Record_)) (key : string) (v : Record_)
  : list (string * Record_) :=
  match d with
  | [] => [(key, v)]
  | (k, w) :: rest =>
      if String.eqb k key then (k, v) :: rest else (k, w) :: dict_set rest key v
  end.

Fixpoint dict_del (d : list (string * Record_)) (key : string)
  : list (string * Record_) :=
  match d with
  | [] => []
  | (k, w) :: rest =>
      if String.eqb k key then rest else (k, w) :: dict_del rest key
  end.

Definition AddressBook__setitem__ (self : AddressBook) (key : string) (r : Record_)
  : AddressBook :=
  mk_AddressBook (dict_set (data self) key r) (notes_manager self).

Definition add_note (self : AddressBook) (text : string) : AddressBook :=
  mk_AddressBook (data self) (NoteManager_add_note (notes_manager self) text).

Definition find (self : AddressBook) (name : string) : option Record_ :=
  dict_get (data self) name.

Definition delete (self : AddressBook) (name : string) : AddressBook :=
  mk_AddressBook (dict_del (data self) name) (notes_manager self).

(** [query[0]] *)
Definition getitem0 (query : string) : result string :=
  match query with
  | EmptyString => Raise IndexError
  | String c _ => Ok (String c EmptyString)
  end.

(** [search]: the [try] decides the loop that fills [results]; the
    [return] of the [finally] clause ends the call. *)
Definition search (self : AddressBook) (query : string) : result (list Record_) :=
  let results :=
    match (c <- getitem0 query ;; Py.int c) with
    | Raise _ =>
        flat_map (fun '(name, record) =>
                    if Py.contains (Py.lower query) (Py.lower name)
                    then [record] else [])
                 (data self)
    | Ok _ =>
        flat_map (fun '(name, record) =>
                    flat_map (fun phone =>
                                if Py.contains (Py.lower query)
                                               (Py.lower (Phone_value phone))
                                then [record] else [])
                             (phones record))
                 (data self)
    end in
  Ok results.

(** The content of a file written by [dump]: a snapshot of the object
    given to it, which [load] gives back. *)
Definition save_to_file (self : AddressBook) : list (string * Record_) :=
  data self.

Definition load_from_file (self : AddressBook) (file : list (string * Record_))
  : AddressBook :=
  mk_AddressBook file (notes_manager self).

Definition save_book (address_book : AddressBook) : AddressBook := address_book.

(** [load_book]: [None] is the missing file. *)
Definition load_book (file : option AddressBook) : AddressBook :=
  match file with
  | Some book => book
  | None => AddressBook__init__
  end.

(** class [AddressBookIterator]; the address book it refers to is the
    shared object, read again at every call of [__next__]. *)
Record AddressBookIterator : Type := mk_AddressBookIterator {
  items_per_page : Z;
  current_page : Z
}.

Definition AddressBookIterator__init__ (items_per_page : Z) : AddressBookIterator :=
  mk_AddressBookIterator items_per_page 0.

Definition AddressBook__iter__ : AddressBookIterator :=
  AddressBookIterator__init__ 5.

Definition AddressBookIterator__next__ (address_book : AddressBook)
  (self : AddressBookIterator) : result (list Record_) * AddressBookIterator :=
  let start := current_page self * items_per_page self in
  let end_ := start + items_per_page self in
  let records := Py.slice (values address_book) start end_ in
  match records with
  | [] => (Raise StopIteration, self)
  | _ => (Ok records,
          mk_AddressBookIterator (items_per_page self) (current_page self + 1))
  end.

(** The value of [days_count] when [get_upcoming_birthdays] is called:
    the [int] read, or the text typed when [int()] did not accept it. *)
Inductive days_value : Type :=
| DaysInt (n : Z)
| DaysStr (s : string).

(** [0 <= delta.days <= days_count] *)
Definition in_window (delta_days : Z) (days_count : days_value) : result bool :=
  if 0 <=? delta_days then
    match days_count with
    | DaysInt n => Ok (delta_days <=? n)
    | DaysStr _ => Raise TypeError
    end
  else Ok false.

(** The body of the loop of [get_upcoming_birthdays] for a record whose
    [birthday] is true: whether the record is appended. *)
Definition birthday_is_upcoming (today : Datetime.datetime) (b : pyobject)
  (days_count : days_value) : result bool :=
  m <- getattr_month b ;;
  d <- getattr_day b ;;
  next_birthday <- Datetime.new (Datetime.year today) m d ;;
  next_birthday <-
    (if Datetime.lt next_birthday today
     then Datetime.new (Datetime.year today + 1) m d
     else Ok next_birthday) ;;
  let delta := Datetime.sub next_birthday today in
  in_window (Datetime.days delta) days_count.

Fixpoint upcoming_loop (today : Datetime.datetime) (records : list Record_)
  (days_count : days_value) : result (list Record_) :=
  match records with
  | [] => Ok []
  | record :: rest =>
      keep <-
        match birthday record with
        | Some b => birthday_is_upcoming today b days_count
        | None => Ok false
        end ;;
      upcoming <- upcoming_loop today rest days_count ;;
      Ok (if keep then record :: upcoming else upcoming)
  end.

(** [get_upcoming_birthdays]; [today] is the value of
    [datetime.today()]. *)
Definition get_upcoming_birthdays (today : Datetime.datetime)
  (address_book : AddressBook) (days_count : days_value) : result (list Record_) :=
  upcoming_loop today (values address_book) days_count.

Definition format_days (days_count : days_value) : string :=
  match days_count with
  | DaysInt n => Py.str_of_int n
  | DaysStr s => s
  end.

Fixpoint print_contacts (out : list string) (l : list Record_)
  : list string * result unit :=
  match l with
  | [] => (out, Ok tt)
  | contact :: rest =>
      match Record__str__ contact with
      | Ok s => print_contacts (out ++ [s; "**********"])%list rest
      | Raise e => (out, Raise e)
      end
  end.

(** [fun_upcoming_birthdays]; [line] is what [input] returns.  The
    result is the lines printed and how the call ends. *)
Definition fun_upcoming_birthdays (today : Datetime.datetime)
  (address_book : AddressBook) (line : string) : list string * result unit :=
  let invalid := "Invalid input. Please enter a non-negative integer." in
  let '(days_count, out) :=
    match Py.int line with
    | Ok n => if n <? 0 then (DaysInt n, [invalid]) else (DaysInt n, [])
    | Raise _ => (DaysStr line, [invalid])
    end in
  let none_line :=
    "No upcoming birthdays within the next " ++ format_days days_count
    ++ " days." in
  let some_line :=
    "Upcoming birthdays within the next " ++ format_days days_count
    ++ " days:" in
  match get_upcoming_birthdays today address_book days_count with
  | Raise e => (out, Raise e)
  | Ok [] => (List.app out [none_line], Ok tt)
  | Ok upcoming_birthdays =>
      print_contacts (List.app out ["**********"; some_line]) upcoming_birthdays
  end.

(** How a command ends: it returns, an exception leaves it, or [input]
    finds no more lines. *)
Inductive ending : Type :=
| Returned
| Raised (e : exception)
| InputExhausted.

(** [key in d] *)
Definition dict_in (d : list (string * Record_)) (key : string) : bool :=
  match dict_get d key with
  | Some _ => true
  | None => false
  end.

(** The commands read their answers with [input]; [inputs] is the list
    of the lines typed, in order.  The result is the address book after
    the command, the lines it prints with [print], and how it ends. *)

(** [fun_delete_contact] *)
Definition fun_delete_contact (address_book : AddressBook) (inputs : list string)
  : AddressBook * list string * ending :=
  match inputs with
  | [] => (address_book, [], InputExhausted)
  | contact_name :: rest =>
      if dict_in (data address_book) contact_name then
        match rest with
        | [] => (address_book, [], InputExhausted)
        | question :: _ =>
            if String.eqb question "yes"
            then (mk_AddressBook (dict_del (data address_book) contact_name)
                                 (notes_manager address_book),
                  ["Contact deleted"], Returned)
            else (address_book, ["Deletion canceled"], Returned)
        end
      else
        (address_book,
         ["Contact with the name " ++ contact_name ++ " not found."], Returned)
  end.

(** [fun_add_note] *)
Fixpoint fun_add_note (address_book : AddressBook) (inputs : list string)
  : AddressBook * list string * ending :=
  match inputs with
  | [] => (address_book, [], InputExhausted)
  | note_text :: rest =>
      if String.eqb (Py.lower note_text) "c" then (address_book, [], Returned)
      else
        let '(book, out, e) :=
          fun_add_note
            (mk_AddressBook (data address_book)
               (NoteManager_add_note (notes_manager address_book) note_text))
            rest in
        (book, "Note added successfully" :: out, e)
  end.

(** [datetime.strptime] with a first argument that is not a [str]. *)
Definition strptime_of_object (data_string : pyobject) : result Datetime.datetime :=
  Raise TypeError.

(** [set_birthday] as the commands call it, with the [date] they have
    parsed themselves. *)
Definition set_birthday_of_object (self : Record_) (birthday : pyobject)
  : result Record_ :=
  let body :=
    dt <- strptime_of_object birthday ;;
    let birthday_datetime := DateObject (Datetime.to_date dt) in
    b <- Birthday__init__ birthday_datetime ;;
    Ok (set_birthday_attr self (Some (BirthdayObject b))) in
  match body with
  | Raise (ValueError _) =>
      Raise (ValueError "Invalid birthday date format. Use YYYY-MM-DD.")
  | r => r
  end.

(** The loops of [fun_add_contact].  Each gives the record as the loop
    leaves it and either the lines still to read or the end of the
    command. *)
Fixpoint read_phones (record : Record_) (inputs : list string)
  : Record_ * (ending + list string) :=
  match inputs with
  | [] => (record, inl InputExhausted)
  | phone :: rest =>
      if String.eqb phone "c" then (record, inr rest)
      else
        match add_phone record phone with
        | Ok record' => read_phones record' rest
        | Raise (ValueError _) => read_phones record rest
        | Raise e => (record, inl (Raised e))
        end
  end.

Fixpoint read_birthday (record : Record_) (inputs : list string)
  : Record_ * (ending + list string) :=
  match inputs with
  | [] => (record, inl InputExhausted)
  | birthday :: rest =>
      if String.eqb birthday "c" then (record, inr rest)
      else
        match (dt <- Datetime.strptime_Ymd birthday ;;
               set_birthday_of_object record (DateObject (Datetime.to_date dt)))
        with
        | Ok record' => (record', inr rest)
        | Raise (ValueError _) => read_birthday record rest
        | Raise e => (record, inl (Raised e))
        end
  end.

Fixpoint read_email (record : Record_) (inputs : list string)
  : Record_ * (ending + list string) :=
  match inputs with
  | [] => (record, inl InputExhausted)
  | email :: rest =>
      if String.eqb email "c" then (record, inr rest)
      else
        match add_email record email with
        | Ok record' => (record', inr rest)
        | Raise (ValueError _) => read_email record rest
        | Raise e => (record, inl (Raised e))
        end
  end.

Definition read_address (record : Record_) (inputs : list string)
  : Record_ * ending :=
  match inputs with
  | [] => (record, InputExhausted)
  | address :: _ =>
      if String.eqb address "c" then (record, Returned)
      else (set_address record address, Returned)
  end.

(** The record that [fun_add_contact] builds from the lines typed. *)
Definition read_contact (record : Record_) (inputs : list string)
  : Record_ * ending :=
  match read_phones record inputs with
  | (record, inl e) => (record, e)
  | (record, inr inputs) =>
      match read_birthday record inputs with
      | (record, inl e) => (record, e)
      | (record, inr inputs) =>
          match read_email record inputs with
          | (record, inl e) => (record, e)
          | (record, inr inputs) => read_address record inputs
          end
      end
  end.

(** [fun_add_contact]: the new record is stored under [name] first and
    filled afterwards; the address book holds the same object, so it
    sees the record as the command leaves it. *)
Definition fun_add_contact (address_book : AddressBook) (name : string)
  (inputs : list string) : AddressBook * ending :=
  let '(record, e) := read_contact (Record__init__ name) inputs in
  (AddressBook__setitem__ address_book name record, e).

Definition invalid_command : string :=
  "Invalid command, please enter(phone, birthday, address, email) (c - close): ".

(** The [try] of [fun_edit_contact] around one edit: [r] is the result
    of the edit and [continue] the rest of the loop. *)
Definition try_edit (contact_edit : Record_) (r : result Record_)
  (continue : Record_ -> Record_ * list string * ending)
  : Record_ * list string * ending :=
  match r with
  | Ok contact_edit' => continue contact_edit'
  | Raise (ValueError _) =>
      let '(c, out, e) := continue contact_edit in
      (c, invalid_command :: out, e)
  | Raise e => (contact_edit, [], Raised e)
  end.

(** [contact_edit.phones[0].value] *)
Definition first_phone_value (contact_edit : Record_) : result string :=
  match phones contact_edit with
  | [] => Raise IndexError
  | phone :: _ => Ok (Phone_value phone)
  end.

(** The loop of [fun_edit_contact]. *)
Fixpoint edit_loop (contact_edit : Record_) (inputs : list string)
  : Record_ * list string * ending :=
  match inputs with
  | [] => (contact_edit, [], InputExhausted)
  | edit :: rest =>
      if String.eqb (Py.lower edit) "c" then (contact_edit, [], Returned)
      else if String.eqb edit "phone" then
        match rest with
        | [] => (contact_edit, [], InputExhausted)
        | new_phone :: rest' =>
            try_edit contact_edit
              (old_phone <- first_phone_value contact_edit ;;
               edit_phone contact_edit old_phone new_phone)
              (fun c => edit_loop c rest')
        end
      else if String.eqb edit "birthday" then
        match rest with
        | [] => (contact_edit, [], InputExhausted)
        | line :: rest' =>
            try_edit contact_edit
              (dt <- Datetime.strptime_Ymd line ;;
               set_birthday_of_object contact_edit
                 (DateObject (Datetime.to_date dt)))
              (fun c => edit_loop c rest')
        end
      else if String.eqb edit "address" then
        match rest with
        | [] => (contact_edit, [], InputExhausted)
        | new_address :: rest' =>
            edit_loop (set_address contact_edit new_address) rest'
        end
      else if String.eqb edit "email" then
        match rest with
        | [] => (contact_edit, [], InputExhausted)
        | new_email :: rest' =>
            try_edit contact_edit (edit_email contact_edit new_email)
              (fun c => edit_loop c rest')
        end
      else
        let '(c, out, e) := edit_loop contact_edit rest in
        (c, invalid_command :: out, e)
  end.

(** [fun_edit_contact] on an address book in which every key holds a
    Record object of its own, as [fun_add_contact] builds them: the
    record edited is the object the address book holds under the name
    typed.  [fun_edit_contact_shared] below is the command on an address
    book whose keys may hold one and the same object. *)
Definition fun_edit_contact (address_book : AddressBook) (inputs : list string)
  : AddressBook * list string * ending :=
  match inputs with
  | [] => (address_book, [], InputExhausted)
  | contact_name :: rest =>
      match dict_get (data address_book) contact_name with
      | Some contact_edit =>
          let '(c, out, e) := edit_loop contact_edit rest in
          (AddressBook__setitem__ address_book contact_name c,
           "Contact found" :: out, e)
      | None =>
          (address_book, ["Contact " ++ contact_name ++ " not found"], Returned)
      end
  end.

(** The address book with the identity of its records.
    [fun_edit_contact] changes the Record object it finds in place, so
    every key that holds that object sees the change.  The entries of a
    [SharedBook] give, for each key, the number of the object it holds,
    and [object_at] the state of each object; two keys with the same
    number hold the same object. *)
Record SharedBook : Type := mk_SharedBook {
  entries : list (string * nat);
  object_at : nat -> Record_;
  shared_notes_manager : NoteManager
}.

(** The address book as [find] and the other methods read it. *)
Definition contents (book : SharedBook) : AddressBook :=
  mk_AddressBook
    (map (fun e => (fst e, object_at book (snd e))) (entries book))
    (shared_notes_manager book).

Fixpoint entries_get (l : list (string * nat)) (key : string) : option nat :=
  match l with
  | [] => None
  | (k, a) :: rest => if String.eqb k key then Some a else entries_get rest key
  end.

(** The objects after the object [a] has been changed in place. *)
Definition set_object (objects : nat -> Record_) (a : nat) (r : Record_)
  : nat -> Record_ :=
  fun x => if Nat.eqb x a then r else objects x.

(** [fun_edit_contact]: [contact_edit] is the object found under the
    name typed, and the edits change that object. *)
Definition fun_edit_contact_shared (address_book : SharedBook)
  (inputs : list string) : SharedBook * list string * ending :=
  match inputs with
  | [] => (address_book, [], InputExhausted)
  | contact_name :: rest =>
      match entries_get (entries address_book) contact_name with
      | Some a =>
          let '(c, out, e) := edit_loop (object_at address_book a) rest in
          (mk_SharedBook (entries address_book)
             (set_object (object_at address_book) a c)
             (shared_notes_manager address_book),
           "Contact found" :: out, e)
      | None =>
          (address_book, ["Contact " ++ contact_name ++ " not found"], Returned)
      end
  end.

(** The address book in which the key at each place holds an object of
    its own, numbered by the place. *)
Definition own_objects (address_book : AddressBook) : SharedBook :=
  mk_SharedBook
    (combine (keys address_book) (seq 0 (List.length (data address_book))))
    (fun a => nth a (values address_book) (Record__init__ EmptyString))
    (notes_manager address_book).

End maindz.

(** ** Values and notions used in the statements *)

(** Ten times the character U+00B2 (superscript two). *)
Definition superscript_twos : string :=
  let c := ascii_of_nat 178 in
  String c (String c (String c (String c (String c
  (String c (String c (String c (String c (String c EmptyString))))))))).

(** Characters below U+0080. *)
Definition is_ascii_char (c : ascii) : bool := Py.code c <? 128.

(** A record with one stored phone. *)
Definition record_one_phone : maindz.Record_ :=
  maindz.mk_Record (maindz.mk_Name "ann") [maindz.mk_Phone "0123456789"]
                   None None (maindz.mk_Address None) [].

(** The moments used as [datetime.today()]. *)
Definition today_morning : Datetime.datetime :=
  Datetime.mk_datetime 2024 12 30 10 0 0 0.

Definition today_midnight : Datetime.datetime :=
  Datetime.mk_datetime 2024 12 30 0 0 0 0.

Definition record_with_birthday (name : string) (b : maindz.pyobject) : maindz.Record_ :=
  maindz.mk_Record (maindz.mk_Name name) [] None (Some b) (maindz.mk_Address None) [].

(** A birthday on January 2, held as a date. *)
Definition record_jan2 : maindz.Record_ :=
  record_with_birthday "jan" (maindz.DateObject (Datetime.mk_date 2000 1 2)).

(** A birthday on December 30, held as a date. *)
Definition record_dec30 : maindz.Record_ :=
  record_with_birthday "dec" (maindz.DateObject (Datetime.mk_date 1990 12 30)).

(** A birthday on January 2, held as a [Birthday] field. *)
Definition record_jan2_field : maindz.Record_ :=
  record_with_birthday "jan"
    (maindz.BirthdayObject
       (maindz.mk_Birthday (Datetime.mk_datetime 2000 1 2 0 0 0 0))).

(** The address book that holds the given records under their names,
    with no notes. *)
Definition book_of (l : list maindz.Record_) : maindz.AddressBook :=
  maindz.mk_AddressBook
    (map (fun r => (maindz.Name_value (maindz.name r), r)) l)
    maindz.NoteManager__init__.

(** The store after [add_note_with_tags("alice", "hi", [])] on a new
    manager, and the note it holds. *)
Definition alice_note : dop2.Notes :=
  dop2.mk_Notes (Some "hi") "alice" (dop2.TagsList []).

Definition alice_store : dop2.NoteManager :=
  dop2.add_note_with_tags dop2.NoteManager__init__ "alice" "hi" (Some []).

(** An address book with 3 records and 2 notes. *)
Definition book_3_2 : maindz.AddressBook :=
  maindz.mk_AddressBook
    [("ann", record_one_phone); ("jan", record_jan2); ("dec", record_dec30)]
    (maindz.mk_NoteManager [maindz.mk_Notes "one"; maindz.mk_Notes "two"]).

(** The outcomes of [k] successive calls of [__next__] on one iterator,
    over an address book that does not change meanwhile. *)
Fixpoint next_calls (address_book : maindz.AddressBook)
  (it : maindz.AddressBookIterator) (k : nat)
  : list (result (list maindz.Record_)) :=
  match k with
  | O => []
  | S k' =>
      let '(r, it') := maindz.AddressBookIterator__next__ address_book it in
      r :: next_calls address_book it' k'
  end.

(** The [i]-th batch (from 0) of [l] in batches of [p]. *)
Definition batch {A : Type} (l : list A) (p i : nat) : list A :=
  firstn p (skipn (i * p) l).

(** [ceil(n / p)] *)
Definition ceil_div (n p : nat) : nat := ((n + p - 1) / p)%nat.

(** Twelve records, named by their rank. *)
Definition twelve_records : list maindz.Record_ :=
  map (fun i => maindz.Record__init__ (Py.str_of_int (Z.of_nat i))) (seq 1 12).

(** The email pattern in words: a letter, then one or more letters,
    digits, underscores or dots, then [@], then a domain of one or more
    letters or dots, then a dot and a last segment of two or more
    letters; letters of either case. *)
Definition is_letter (c : ascii) : bool :=
  Py.between 97 122 c || Py.between 65 90 c.

Definition is_local_char (c : ascii) : bool :=
  is_letter c || Py.is_ascii_digit c || Ascii.eqb c "_" || Ascii.eqb c ".".

Definition is_domain_char (c : ascii) : bool :=
  is_letter c || Ascii.eqb c ".".

Definition email_pattern (s : string) : Prop :=
  exists (c : ascii) (local domain tld : string),
    s = String c local ++ "@" ++ domain ++ "." ++ tld
    /\ is_letter c = true
    /\ (1 <= String.length local)%nat
    /\ Py.all_chars is_local_char local = true
    /\ (1 <= String.length domain)%nat
    /\ Py.all_chars is_domain_char domain = true
    /\ (2 <= String.length tld)%nat
    /\ Py.all_chars is_letter tld = true.

(** [l1] is [l2] with some elements left out, the others in order. *)
Inductive subseq {A : Type} : list A -> list A -> Prop :=
| subseq_nil : subseq [] []
| subseq_skip (x : A) (l1 l2 : list A) : subseq l1 l2 -> subseq l1 (x :: l2)
| subseq_take (x : A) (l1 l2 : list A) : subseq l1 l2 -> subseq (x :: l1) (x :: l2).

(** An address book with the keys "ann", "jan" and "dec". *)
Definition book_three : maindz.AddressBook :=
  maindz.AddressBook__setitem__
    (maindz.AddressBook__setitem__
       (maindz.AddressBook__setitem__ maindz.AddressBook__init__
          "ann" record_one_phone)
       "jan" record_jan2)
    "dec" record_dec30.

(** A phone object holds a value that [Phone] accepts. *)
Definition valid_phone (p : maindz.Phone) : Prop :=
  maindz.Phone_is_valid_phone (maindz.Phone_value p) = true.

(** A record with three phones, the last two equal. *)
Definition record_three_phones : maindz.Record_ :=
  maindz.mk_Record (maindz.mk_Name "ann")
    [maindz.mk_Phone "1111111111"; maindz.mk_Phone "0123456789";
     maindz.mk_Phone "0123456789"]
    None None (maindz.mk_Address None) [].

(** The entries of the address book whose name contains the query, and
    the phones of a record that contain it, both without regard to
    case. *)
Definition name_matches (query : string) (entry : string * maindz.Record_) : bool :=
  Py.contains (Py.lower query) (Py.lower (fst entry)).

Definition phone_matches (query : string) (phone : maindz.Phone) : bool :=
  Py.contains (Py.lower query) (Py.lower (maindz.Phone_value phone)).

(** The query starts with one of the digits [0-9]. *)
Definition starts_with_digit (query : string) : bool :=
  match query with
  | EmptyString => false
  | String c _ => Py.is_ascii_digit c
  end.

(** The value of [datetime.today()] is a date and a time of day in
    their ranges. *)
Definition well_formed (dt : Datetime.datetime) : Prop :=
  Datetime._check_date_fields (Datetime.year dt) (Datetime.month dt)
                              (Datetime.day dt) = true
  /\ 0 <= Datetime.hour dt < 24
  /\ 0 <= Datetime.minute dt < 60
  /\ 0 <= Datetime.second dt < 60
  /\ 0 <= Datetime.microsecond dt < 1000000.

(** The time of day is 00:00:00.000000. *)
Definition at_midnight (dt : Datetime.datetime) : Prop :=
  Datetime.hour dt = 0 /\ Datetime.minute dt = 0
  /\ Datetime.second dt = 0 /\ Datetime.microsecond dt = 0.

(** The record holds, as a date, a birthday on the given month and
    day. *)
Definition born_on (r : maindz.Record_) (month day : Z) : Prop :=
  exists year,
    maindz.birthday r = Some (maindz.DateObject (Datetime.mk_date year month day)).

(** The lines typed before the first line that [stop] accepts, and
    whether there is such a line. *)
Fixpoint before (stop : string -> bool) (inputs : list string) : list string :=
  match inputs with
  | [] => []
  | x :: rest => if stop x then [] else x :: before stop rest
  end.

Definition is_c (line : string) : bool := String.eqb line "c".

Definition is_c_or_C (line : string) : bool := String.eqb (Py.lower line) "c".

(** The record [r'] has the name, the phones and the birthday of [r],
    and its email, if it is not that of [r], contains an [@]. *)
Definition same_identity (r r' : maindz.Record_) : Prop :=
  maindz.name r' = maindz.name r
  /\ maindz.phones r' = maindz.phones r
  /\ maindz.birthday r' = maindz.birthday r
  /\ (forall e, maindz.email r' = Some e ->
      maindz.email r = Some e \/ Py.contains "@" (maindz.Email_value e) = true).

(** An address book in which the keys "home" and "work" hold one and
    the same record object and "jan" another. *)
Definition book_shared : maindz.SharedBook :=
  maindz.mk_SharedBook
    [("home", 0%nat); ("work", 0%nat); ("jan", 1%nat)]
    (fun a => match a with O => record_one_phone | _ => record_jan2 end)
    maindz.NoteManager__init__.

(** * Properties *)

(** ** Phone *)

Lemma is_valid_phone_iff (s : string) :
  maindz.Phone_is_valid_phone s = true <->
  String.length s = 10%nat /\ Py.all_chars Py.isdigit_char s = true.
Proof.
  unfold maindz.Phone_is_valid_phone, Py.len.
  rewrite andb_true_iff, Z.eqb_eq.
  split; intros [Hl Hd].
  - assert (Hn : String.length s = 10%nat) by lia.
    split; [exact Hn|].
    destruct s; [discriminate Hn | exact Hd].
  - split; [lia|].
    destruct s; [discriminate Hl | exact Hd].
Qed.

Lemma ascii_digit_split (c : ascii) :
  Py.is_ascii_digit c = Py.isdigit_char c && is_ascii_char c.
Proof.
  unfold Py.isdigit_char, Py.is_ascii_digit, Py.between, is_ascii_char.
  destruct (48 <=? Py.code c) eqn:H1, (Py.code c <=? 57) eqn:H2,
           (Py.code c =? 178) eqn:H3, (Py.code c =? 179) eqn:H4,
           (Py.code c =? 185) eqn:H5, (Py.code c <? 128) eqn:H6;
    simpl; try reflexivity; lia.
Qed.

Lemma all_chars_andb (p q : ascii -> bool) (s : string) :
  Py.all_chars (fun c => p c && q c) s = Py.all_chars p s && Py.all_chars q s.
Proof.
  induction s as [|c s IH]; simpl; [reflexivity|].
  rewrite IH.
  destruct (p c), (q c), (Py.all_chars p s), (Py.all_chars q s); reflexivity.
Qed.

Lemma all_chars_ext (p q : ascii -> bool) (s : string) :
  (forall c, p c = q c) -> Py.all_chars p s = Py.all_chars q s.
Proof.
  intros H; induction s as [|c s IH]; simpl; [reflexivity|].
  now rewrite H, IH.
Qed.

(** C8, as the code has it: [Phone(s)] succeeds exactly when [s] has
    length 10 and every character is a digit in the sense of
    [str.isdigit] (the decimal digits 0-9 and the superscript digits);
    the stored value is then [s]; in every other case it raises
    [ValueError("Invalid phone number format")]; and the strings of
    decimal digits are the ASCII strings that [str.isdigit] accepts. *)
Theorem Phone_construct_isdigit (s : string) :
  (maindz.Phone__init__ s = Ok (maindz.mk_Phone s) <->
   String.length s = 10%nat /\ Py.all_chars Py.isdigit_char s = true)
  /\ (maindz.Phone__init__ s = Raise (ValueError "Invalid phone number format") <->
      ~ (String.length s = 10%nat /\ Py.all_chars Py.isdigit_char s = true))
  /\ (forall p, maindz.Phone__init__ s = Ok p -> maindz.Phone_value p = s)
  /\ Py.all_chars Py.is_ascii_digit s
     = Py.all_chars Py.isdigit_char s && Py.all_chars is_ascii_char s.
Proof.
  pose proof (is_valid_phone_iff s) as Hv.
  assert (Hd : Py.all_chars Py.is_ascii_digit s
               = Py.all_chars Py.isdigit_char s && Py.all_chars is_ascii_char s).
  { rewrite <- all_chars_andb. apply all_chars_ext, ascii_digit_split. }
  unfold maindz.Phone__init__.
  destruct (maindz.Phone_is_valid_phone s) eqn:E; simpl.
  - split; [|split; [|split]].
    + split; [intros _; now apply Hv | reflexivity].
    + split; [discriminate|]. intros Hn. exfalso. apply Hn. now apply Hv.
    + intros p Hp. injection Hp as <-. reflexivity.
    + exact Hd.
  - assert (Hn : ~ (String.length s = 10%nat
                    /\ Py.all_chars Py.isdigit_char s = true)).
    { intros H. apply Hv in H. discriminate. }
    split; [|split; [|split]].
    + split; [discriminate | intros H; contradiction].
    + split; [intros _; exact Hn | reflexivity].
    + discriminate.
    + exact Hd.
Qed.

(** C8 on ["0123456789"], through the theorem. *)
Lemma Phone_construct_ten_digits :
  maindz.Phone__init__ "0123456789" = Ok (maindz.mk_Phone "0123456789").
Proof.
  apply (proj2 (proj1 (Phone_construct_isdigit "0123456789"))).
  split; reflexivity.
Defined.

(** C8, refuted as stated: a string of ten superscript twos is accepted
    and stored although none of its characters is a decimal digit. *)
Lemma Phone_accepts_superscript_digits :
  maindz.Phone__init__ superscript_twos = Ok (maindz.mk_Phone superscript_twos)
  /\ String.length superscript_twos = 10%nat
  /\ Py.all_chars Py.is_ascii_digit superscript_twos = false.
Proof. repeat split; reflexivity. Qed.

(** ** Record.set_birthday *)

Lemma new_raises_ValueError (y m d : Z) (e : exception) :
  Datetime.new y m d = Raise e -> is_ValueError e = true.
Proof.
  unfold Datetime.new.
  destruct (Datetime._check_date_fields y m d); [discriminate|].
  intros H; injection H as <-; reflexivity.
Qed.

Lemma strptime_raises_ValueError (s : string) (e : exception) :
  Datetime.strptime_Ymd s = Raise e -> is_ValueError e = true.
Proof.
  unfold Datetime.strptime_Ymd.
  destruct (Datetime.format_regex_match s) as [|[[[y m] d] rest] l].
  - intros H; injection H as <-; reflexivity.
  - destruct rest.
    + apply new_raises_ValueError.
    + intros H; injection H as <-; reflexivity.
Qed.

(** C1, on the code: [strptime(...).date()] is a [date], which
    [Birthday] refuses, so [set_birthday] raises its [ValueError] for
    every string, also for one that parses as a calendar date. *)
Theorem set_birthday_always_raises :
  Datetime.strptime_Ymd "2000-01-01" = Ok (Datetime.mk_datetime 2000 1 1 0 0 0 0)
  /\ forall (self : maindz.Record_) (s : string),
       maindz.set_birthday self s
       = Raise (ValueError "Invalid birthday date format. Use YYYY-MM-DD.").
Proof.
  split; [reflexivity|].
  intros self s. unfold maindz.set_birthday.
  destruct (Datetime.strptime_Ymd s) as [dt|e] eqn:E; simpl.
  - reflexivity.
  - apply strptime_raises_ValueError in E.
    destruct e; try discriminate E. reflexivity.
Qed.

(** ** Record.edit_phone *)

Lemma edit_phone_loop_found (ps : list maindz.Phone) (old_phone new_phone : string) :
  (exists p, In p ps /\ maindz.Phone_value p = old_phone) ->
  exists ps', maindz.edit_phone_loop ps old_phone new_phone = Some ps'
              /\ In (maindz.mk_Phone new_phone) ps'
              /\ List.length ps' = List.length ps.
Proof.
  induction ps as [|q ps IH]; intros [p [Hin Hv]]; [destruct Hin|].
  simpl. destruct (String.eqb (maindz.Phone_value q) old_phone) eqn:E.
  - eexists; split; [reflexivity|]. split; [now left | reflexivity].
  - destruct Hin as [->|Hin].
    + apply String.eqb_neq in E. contradiction.
    + destruct IH as [ps' [H1 [H2 H3]]]; [now exists p|].
      rewrite H1. simpl. eexists; split; [reflexivity|].
      split; [now right | simpl; now rewrite H3].
Qed.

Lemma edit_phone_loop_not_found (ps : list maindz.Phone) (old_phone new_phone : string) :
  (forall p, In p ps -> maindz.Phone_value p <> old_phone) ->
  maindz.edit_phone_loop ps old_phone new_phone = None.
Proof.
  induction ps as [|q ps IH]; intros H; [reflexivity|].
  simpl. destruct (String.eqb (maindz.Phone_value q) old_phone) eqn:E.
  - apply String.eqb_eq in E. exfalso. apply (H q); [now left | exact E].
  - rewrite IH; [reflexivity|]. intros p Hp. apply H. now right.
Qed.

(** What [edit_phone] does for every argument: it stores [new_phone]
    whenever some stored phone equals [old_phone], whatever [new_phone]
    is, and raises [ValueError] when none does. *)
Lemma edit_phone_behaviour (self : maindz.Record_) (old_phone new_phone : string) :
  ((exists p, In p (maindz.phones self) /\ maindz.Phone_value p = old_phone) ->
   exists self', maindz.edit_phone self old_phone new_phone = Ok self'
                 /\ In (maindz.mk_Phone new_phone) (maindz.phones self'))
  /\ ((forall p, In p (maindz.phones self) -> maindz.Phone_value p <> old_phone) ->
      maindz.edit_phone self old_phone new_phone
      = Raise (ValueError ("Phone " ++ old_phone ++ " not found in the record"))).
Proof.
  unfold maindz.edit_phone. split; intros H.
  - destruct (@edit_phone_loop_found _ old_phone new_phone H) as [ps' [H1 [H2 _]]].
    rewrite H1. eexists; split; [reflexivity | exact H2].
  - now rewrite (@edit_phone_loop_not_found _ old_phone new_phone H).
Qed.

(** C5, on the code: [edit_phone] stores a new value that [Phone]
    would refuse, and the record then holds an invalid phone. *)
Theorem edit_phone_stores_invalid_value :
  maindz.Phone_is_valid_phone "bad" = false
  /\ maindz.Phone__init__ "bad" = Raise (ValueError "Invalid phone number format")
  /\ maindz.edit_phone record_one_phone "0123456789" "bad"
     = Ok (maindz.set_phones record_one_phone [maindz.mk_Phone "bad"]).
Proof. repeat split; reflexivity. Qed.

(** ** The upcoming-birthday query *)

Lemma upcoming_loop_no_birthday (today : Datetime.datetime)
  (records : list maindz.Record_) (days_count : maindz.days_value) :
  (forall r, In r records -> maindz.birthday r = None) ->
  maindz.upcoming_loop today records days_count = Ok [].
Proof.
  induction records as [|r records IH]; intros H; [reflexivity|].
  simpl. rewrite (H r (or_introl eq_refl)). simpl.
  rewrite IH; [reflexivity|]. intros r' Hr'. apply H. now right.
Qed.

(** [get_upcoming_birthdays] has no check of [days_count]: over records
    without a birthday it returns the empty list for every value. *)
Lemma get_upcoming_birthdays_no_birthday (today : Datetime.datetime)
  (address_book : maindz.AddressBook) (days_count : maindz.days_value) :
  (forall r, In r (maindz.values address_book) -> maindz.birthday r = None) ->
  maindz.get_upcoming_birthdays today address_book days_count = Ok [].
Proof. apply upcoming_loop_no_birthday. Qed.

(** C3, on the code: with [-1] the check of [fun_upcoming_birthdays]
    prints its message and the query is made all the same;
    [get_upcoming_birthdays] returns a list, and the call ends without
    an exception. *)
Theorem negative_days_returns_a_result :
  maindz.get_upcoming_birthdays today_morning maindz.AddressBook__init__
    (maindz.DaysInt (-1)) = Ok []
  /\ maindz.get_upcoming_birthdays today_morning (book_of [record_jan2])
       (maindz.DaysInt (-1)) = Ok []
  /\ maindz.fun_upcoming_birthdays today_morning (book_of [record_jan2]) "-1"
     = (["Invalid input. Please enter a non-negative integer.";
         "No upcoming birthdays within the next -1 days."], Ok tt).
Proof. repeat split; vm_compute; reflexivity. Qed.

(** At midnight sharp the two examples of the window come out as
    expected: January 2 is 3 days after December 30. *)
Lemma upcoming_at_midnight :
  maindz.get_upcoming_birthdays today_midnight (book_of [record_jan2])
    (maindz.DaysInt 5) = Ok [record_jan2]
  /\ maindz.get_upcoming_birthdays today_midnight (book_of [record_jan2])
       (maindz.DaysInt 2) = Ok []
  /\ maindz.get_upcoming_birthdays today_midnight (book_of [record_dec30])
       (maindz.DaysInt 0) = Ok [record_dec30].
Proof. repeat split; vm_compute; reflexivity. Qed.

(** C2, on the code: at 10:00 on 2024-12-30 a birthday on January 2 is
    within 2 days, a birthday on December 30 is not within 0 days (nor
    within 300), and a birthday held in the [Birthday] field that
    [set_birthday] builds ends the query with [AttributeError]. *)
Theorem upcoming_uses_time_of_day :
  maindz.get_upcoming_birthdays today_morning (book_of [record_jan2])
    (maindz.DaysInt 2) = Ok [record_jan2]
  /\ maindz.get_upcoming_birthdays today_morning (book_of [record_dec30])
       (maindz.DaysInt 0) = Ok []
  /\ maindz.get_upcoming_birthdays today_morning (book_of [record_dec30])
       (maindz.DaysInt 300) = Ok []
  /\ maindz.get_upcoming_birthdays today_morning (book_of [record_jan2_field])
       (maindz.DaysInt 5) = Raise AttributeError.
Proof. repeat split; vm_compute; reflexivity. Qed.

(** ** NoteManager.delete_note *)

Lemma nth_error_in_range {A : Type} (l : list A) (i : nat) :
  (i < List.length l)%nat -> exists x, nth_error l i = Some x.
Proof.
  intros H. destruct (nth_error l i) as [x|] eqn:E; [now exists x|].
  apply nth_error_None in E. lia.
Qed.

(** C6, as the code has it: within [1..n] the call removes the note at
    that place and keeps the others in order; when the tags of that note
    are not [None], it prints the deleted note and returns [None];
    outside [1..n] it prints "Invalid note index.", raises nothing,
    returns [None] and leaves the store as it was. *)
Theorem delete_note_prints (self : dop2.NoteManager) (index : Z) :
  (1 <= index <= Z.of_nat (List.length (dop2.notes self)) ->
   exists note,
     nth_error (dop2.notes self) (Z.to_nat (index - 1)) = Some note
     /\ dop2.manager (dop2.delete_note self index)
        = dop2.mk_NoteManager
            (firstn (Z.to_nat (index - 1)) (dop2.notes self)
             ++ skipn (Z.to_nat index) (dop2.notes self))%list
     /\ forall ts, dop2.tags_str (dop2.tags note) = Ok ts ->
          dop2.delete_note self index
          = dop2.mk_outcome
              (dop2.mk_NoteManager
                 (firstn (Z.to_nat (index - 1)) (dop2.notes self)
                  ++ skipn (Z.to_nat index) (dop2.notes self))%list)
              ["Note " ++ Py.str_of_int index ++ " deleted: "
               ++ dop2.text_str (dop2.text note) ++ " (by "
               ++ dop2.author note ++ ", Tags: " ++ ts ++ ")"]
              (Ok None))
  /\ (index < 1 \/ Z.of_nat (List.length (dop2.notes self)) < index ->
      dop2.delete_note self index
      = dop2.mk_outcome self ["Invalid note index."] (Ok None)).
Proof.
  unfold dop2.delete_note. split.
  - intros [H1 H2].
    destruct (nth_error_in_range (dop2.notes self) (Z.to_nat (index - 1)))
      as [note Hn]; [lia|].
    exists note. split; [exact Hn|].
    replace ((1 <=? index) && (index <=? Z.of_nat (List.length (dop2.notes self))))
      with true by (symmetry; apply andb_true_iff; split; lia).
    unfold dop2.pop. rewrite Hn.
    replace (S (Z.to_nat (index - 1))) with (Z.to_nat index) by lia.
    unfold dop2.Notes__str__. split.
    + destruct (dop2.tags_str (dop2.tags note)); reflexivity.
    + intros ts Hts. rewrite Hts. reflexivity.
  - intros H.
    replace ((1 <=? index) && (index <=? Z.of_nat (List.length (dop2.notes self))))
      with false; [reflexivity|].
    symmetry. apply andb_false_iff. destruct H; [left|right]; lia.
Qed.

(** The two examples of C6 through the theorem. *)
Lemma delete_note_prints_examples :
  dop2.delete_note dop2.NoteManager__init__ 1
  = dop2.mk_outcome dop2.NoteManager__init__ ["Invalid note index."] (Ok None)
  /\ dop2.delete_note alice_store 1
     = dop2.mk_outcome dop2.NoteManager__init__
         ["Note 1 deleted: hi (by alice, Tags: )"] (Ok None).
Proof.
  split.
  - apply (proj2 (delete_note_prints dop2.NoteManager__init__ 1)).
    right. simpl. lia.
  - destruct (proj1 (delete_note_prints alice_store 1) ltac:(simpl; lia))
      as [note [Hn [_ H]]].
    injection Hn as <-. apply (H EmptyString). reflexivity.
Defined.

(** C6, refuted as stated: on the empty store [delete_note(1)] raises
    nothing, and after the note of alice is added [delete_note(1)]
    returns [None], not the note. *)
Lemma delete_note_returns_None :
  dop2.returned (dop2.delete_note dop2.NoteManager__init__ 1) = Ok None
  /\ dop2.returned (dop2.delete_note alice_store 1) = Ok None
  /\ dop2.returned (dop2.delete_note alice_store 1) <> Ok (Some alice_note)
  /\ dop2.printed (dop2.delete_note alice_store 1)
     = ["Note 1 deleted: hi (by alice, Tags: )"]
  /\ dop2.manager (dop2.delete_note alice_store 1) = dop2.NoteManager__init__.
Proof. repeat split; try reflexivity. discriminate. Qed.

(** ** Persistence *)

(** [save_to_file] then [load_from_file] carries the records and leaves
    the notes of the loading address book as they were. *)
Lemma save_to_file_load_from_file (book target : maindz.AddressBook) :
  maindz.data (maindz.load_from_file target (maindz.save_to_file book))
  = maindz.data book
  /\ maindz.notes_manager (maindz.load_from_file target (maindz.save_to_file book))
     = maindz.notes_manager target.
Proof. split; reflexivity. Qed.

(** [save_book] then [load_book] gives the address book back, notes
    included. *)
Lemma save_book_load_book (book : maindz.AddressBook) :
  maindz.load_book (Some (maindz.save_book book)) = book.
Proof. reflexivity. Qed.

(** C7, on the code: the file of [save_to_file] holds [self.data] only,
    so a new address book that loads it has the 3 records and none of
    the 2 notes. *)
Theorem save_to_file_drops_notes :
  maindz.load_from_file maindz.AddressBook__init__ (maindz.save_to_file book_3_2)
  = maindz.mk_AddressBook (maindz.data book_3_2) (maindz.mk_NoteManager [])
  /\ maindz.load_from_file maindz.AddressBook__init__ (maindz.save_to_file book_3_2)
     <> book_3_2
  /\ List.length (maindz.NoteManager_notes (maindz.notes_manager book_3_2)) = 2%nat.
Proof. repeat split; try reflexivity. discriminate. Qed.

(** ** AddressBook.search *)

Lemma contains_empty (s : string) : Py.contains EmptyString s = true.
Proof. destruct s; reflexivity. Qed.

(** C10: the empty query makes [query[0]] raise [IndexError], the names
    are searched, and every record is returned, in the order of the
    address book. *)
Theorem search_empty_query (address_book : maindz.AddressBook) :
  maindz.search address_book EmptyString = Ok (maindz.values address_book).
Proof.
  unfold maindz.search, maindz.values. simpl. f_equal.
  induction (maindz.data address_book) as [|[name record] d IH]; [reflexivity|].
  simpl. rewrite contains_empty. simpl. now rewrite IH.
Qed.

(** ** AddressBookIterator *)

Lemma slice_window {A : Type} (l : list A) (a p : nat) :
  Py.slice l (Z.of_nat a) (Z.of_nat a + Z.of_nat p) = firstn p (skipn a l).
Proof.
  unfold Py.slice, Py.clamp.
  destruct (Z.ltb_spec (Z.of_nat a) 0) as [H|_]; [lia|].
  destruct (Z.ltb_spec (Z.of_nat a + Z.of_nat p) 0) as [H|_]; [lia|].
  destruct (Nat.le_gt_cases a (List.length l)) as [Ha|Ha].
  - rewrite (Z.min_l (Z.of_nat a)) by lia.
    rewrite Nat2Z.id.
    destruct (Nat.le_gt_cases (a + p) (List.length l)) as [Hb|Hb].
    + rewrite Z.min_l by lia. f_equal. lia.
    + rewrite Z.min_r by lia.
      rewrite !firstn_all2; try reflexivity; rewrite length_skipn; lia.
  - rewrite !Z.min_r by lia.
    rewrite Nat2Z.id, Z.sub_diag. simpl.
    rewrite (skipn_all2 (n := a) l) by lia.
    now rewrite firstn_nil.
Qed.

Lemma batch_length {A : Type} (l : list A) (p i : nat) :
  List.length (batch l p i) = Nat.min p (List.length l - i * p).
Proof. unfold batch. now rewrite length_firstn, length_skipn. Qed.

Lemma batch_nil_iff {A : Type} (l : list A) (p i : nat) :
  (0 < p)%nat -> (batch l p i = [] <-> (List.length l <= i * p)%nat).
Proof.
  intros Hp. rewrite <- length_zero_iff_nil, batch_length. lia.
Qed.

(** One call of [__next__] at page [c]. *)
Lemma next_at_page (address_book : maindz.AddressBook) (p c : nat) :
  (0 < p)%nat ->
  maindz.AddressBookIterator__next__ address_book
    (maindz.mk_AddressBookIterator (Z.of_nat p) (Z.of_nat c))
  = if (c * p <? List.length (maindz.values address_book))%nat
    then (Ok (batch (maindz.values address_book) p c),
          maindz.mk_AddressBookIterator (Z.of_nat p) (Z.of_nat (S c)))
    else (Raise StopIteration,
          maindz.mk_AddressBookIterator (Z.of_nat p) (Z.of_nat c)).
Proof.
  intros Hp. unfold maindz.AddressBookIterator__next__. simpl.
  replace (Z.of_nat c * Z.of_nat p) with (Z.of_nat (c * p)) by lia.
  rewrite slice_window. fold (batch (maindz.values address_book) p c).
  pose proof (batch_nil_iff (maindz.values address_book) p c Hp) as Hnil.
  destruct (Nat.ltb_spec (c * p) (List.length (maindz.values address_book)))
    as [Hlt|Hge].
  - destruct (batch (maindz.values address_book) p c) eqn:E.
    + exfalso. apply Nat.lt_nge in Hlt. apply Hlt, Hnil. reflexivity.
    + do 2 f_equal. lia.
  - now rewrite (proj2 Hnil Hge).
Qed.

Lemma next_calls_from (address_book : maindz.AddressBook) (p : nat) :
  (0 < p)%nat ->
  forall (k c i : nat), (i < k)%nat ->
  nth_error
    (next_calls address_book
       (maindz.mk_AddressBookIterator (Z.of_nat p) (Z.of_nat c)) k) i
  = Some (if ((c + i) * p <? List.length (maindz.values address_book))%nat
          then Ok (batch (maindz.values address_book) p (c + i))
          else Raise StopIteration).
Proof.
  intros Hp. induction k as [|k IH]; intros c i Hi; [lia|].
  cbn [next_calls]. rewrite (next_at_page address_book p c Hp).
  destruct (Nat.ltb_spec (c * p) (List.length (maindz.values address_book)))
    as [Hlt|Hge]; cbv beta iota.
  - destruct i as [|i]; cbn [nth_error].
    + rewrite Nat.add_0_r.
      now rewrite (proj2 (Nat.ltb_lt _ _) Hlt).
    + rewrite (IH (S c) i) by lia.
      now replace (S c + i)%nat with (c + S i)%nat by lia.
  - destruct i as [|i]; cbn [nth_error].
    + rewrite Nat.add_0_r.
      now rewrite (proj2 (Nat.ltb_ge _ _) Hge).
    + rewrite (IH c i) by lia.
      rewrite (proj2 (Nat.ltb_ge ((c + i) * p) _)) by nia.
      now rewrite (proj2 (Nat.ltb_ge ((c + S i) * p) _)) by nia.
Qed.

Lemma lt_ceil_div (n p i : nat) :
  (0 < p)%nat -> ((i * p <? n) = (i <? ceil_div n p))%nat.
Proof.
  intros Hp. unfold ceil_div.
  destruct (Nat.ltb_spec (i * p) n) as [H|H]; symmetry.
  - apply Nat.ltb_lt.
    apply (Nat.lt_le_trans _ (S i)); [lia|].
    apply Nat.div_le_lower_bound; nia.
  - apply Nat.ltb_ge.
    apply Nat.lt_succ_r. apply Nat.Div0.div_lt_upper_bound. nia.
Qed.

Lemma firstn_add {A : Type} (l : list A) (a b : nat) :
  firstn (a + b) l = (firstn a l ++ firstn b (skipn a l))%list.
Proof.
  revert l; induction a as [|a IH]; intros l; [reflexivity|].
  destruct l as [|x l]; simpl.
  - now rewrite firstn_nil.
  - now rewrite IH.
Qed.

Lemma concat_batches {A : Type} (l : list A) (p m : nat) :
  List.concat (map (batch l p) (seq 0 m)) = firstn (m * p) l.
Proof.
  induction m as [|m IH]; [reflexivity|].
  rewrite seq_S, map_app, concat_app, IH. simpl.
  rewrite app_nil_r. unfold batch.
  replace (p + m * p)%nat with (m * p + p)%nat by lia.
  now rewrite firstn_add.
Qed.

Lemma ceil_div_covers (n p : nat) : (0 < p)%nat -> (n <= ceil_div n p * p)%nat.
Proof.
  intros Hp. unfold ceil_div.
  pose proof (Nat.div_mod_eq (n + p - 1) p) as E.
  pose proof (Nat.mod_upper_bound (n + p - 1) p) as U.
  nia.
Qed.

(** C9: over [n] records with page size [p > 0], the calls of
    [__next__] on a new iterator return the batches of [p] records in
    the order of the address book for the first [ceil(n/p)] calls and
    raise [StopIteration] at every later call; the batches before the
    last have [p] records, the last has [n mod p] when [p] does not
    divide [n], and together the batches are the records. *)
Theorem pagination_batches (address_book : maindz.AddressBook) (p : Z)
  (Hp : 0 < p) :
  let l := maindz.values address_book in
  let n := List.length l in
  let pn := Z.to_nat p in
  (forall k i : nat, (i < k)%nat ->
     nth_error (next_calls address_book (maindz.AddressBookIterator__init__ p) k) i
     = Some (if (i <? ceil_div n pn)%nat then Ok (batch l pn i)
             else Raise StopIteration))
  /\ ceil_div n pn = (n / pn + (if (n mod pn =? 0)%nat then 0 else 1))%nat
  /\ (forall i : nat, (i < n / pn)%nat -> List.length (batch l pn i) = pn)
  /\ ((n mod pn)%nat <> 0%nat ->
      List.length (batch l pn (n / pn)) = (n mod pn)%nat)
  /\ List.concat (map (batch l pn) (seq 0 (ceil_div n pn))) = l.
Proof.
  intros l n pn.
  assert (Hpn : (0 < pn)%nat) by (unfold pn; lia).
  assert (Ep : p = Z.of_nat pn) by (unfold pn; lia).
  pose proof (Nat.div_mod_eq n pn) as Edm.
  pose proof (Nat.mod_upper_bound n pn) as Umod.
  split; [|split; [|split; [|split]]].
  - intros k i Hi. unfold maindz.AddressBookIterator__init__.
    rewrite Ep. change 0 with (Z.of_nat 0).
    rewrite (next_calls_from address_book pn Hpn k 0%nat i Hi).
    simpl. fold l n. now rewrite (lt_ceil_div n pn i Hpn).
  - unfold ceil_div.
    destruct (Nat.eqb_spec (n mod pn) 0) as [E0|E0].
    + rewrite Nat.add_0_r.
      apply Nat.le_antisymm.
      * apply Nat.lt_succ_r, Nat.Div0.div_lt_upper_bound. nia.
      * apply Nat.div_le_lower_bound; nia.
    + apply Nat.le_antisymm.
      * apply Nat.lt_succ_r, Nat.Div0.div_lt_upper_bound. nia.
      * apply Nat.div_le_lower_bound; nia.
  - intros i Hi. rewrite batch_length. fold n. nia.
  - intros Hm. rewrite batch_length. fold n. nia.
  - rewrite concat_batches. apply firstn_all2. fold n.
    now apply ceil_div_covers.
Qed.

(** C9 on 12 records with page size 5: batches of 5, 5 and 2 records in
    order, then [StopIteration] at every further call, the same from
    every new iterator. *)
Lemma pagination_12_by_5 :
  0 < 5
  /\ next_calls (book_of twelve_records) (maindz.AddressBookIterator__init__ 5) 5
     = [Ok (firstn 5 twelve_records);
        Ok (firstn 5 (skipn 5 twelve_records));
        Ok (skipn 10 twelve_records);
        Raise StopIteration; Raise StopIteration]
  /\ nth_error (next_calls (book_of twelve_records) maindz.AddressBook__iter__ 4) 3
     = Some (Raise StopIteration)
  /\ nth_error (next_calls (book_of twelve_records) maindz.AddressBook__iter__ 1) 0
     = Some (Ok (firstn 5 twelve_records)).
Proof.
  split; [lia|]. split; [reflexivity|].
  pose proof (pagination_batches (book_of twelve_records) 5 ltac:(lia))
    as [H _].
  split.
  - exact (H 4%nat 3%nat ltac:(lia)).
  - exact (H 1%nat 0%nat ltac:(lia)).
Defined.

(** ** Regular expressions: the matcher and the language *)

Lemma append_nil_inv (s1 s2 : string) :
  s1 ++ s2 = EmptyString -> s1 = EmptyString /\ s2 = EmptyString.
Proof. destruct s1; simpl; [intros ->; auto | discriminate]. Qed.

Lemma matches_nil_nullable (r : Re.regex) (s : string) :
  Re.matches r s -> s = EmptyString -> Re.nullable r = true.
Proof.
  induction 1 as [ | p c Hp | r1 r2 s1 s2 _ IH1 _ IH2 | r1 r2 s _ IH
                 | r1 r2 s _ IH | r | r s1 s2 _ _ _ _ ]; intros E; simpl.
  - reflexivity.
  - discriminate.
  - apply append_nil_inv in E as [E1 E2]. now rewrite IH1, IH2.
  - now rewrite IH.
  - rewrite IH by assumption. apply orb_true_r.
  - reflexivity.
  - reflexivity.
Qed.

Lemma nullable_matches (r : Re.regex) :
  Re.nullable r = true <-> Re.matches r EmptyString.
Proof.
  split; [|intros H; now apply (matches_nil_nullable r EmptyString H)].
  induction r as [ | | p | r1 IH1 r2 IH2 | r1 IH1 r2 IH2 | r IH]; simpl; intros H.
  - discriminate.
  - constructor.
  - discriminate.
  - apply andb_true_iff in H as [H1 H2].
    change EmptyString with (EmptyString ++ EmptyString). constructor; auto.
  - apply orb_true_iff in H as [H|H]; [apply Re.MAltL | apply Re.MAltR]; auto.
  - constructor.
Qed.

Lemma deriv_sound (r : Re.regex) : forall (c : ascii) (s : string),
  Re.matches (Re.deriv c r) s -> Re.matches r (String c s).
Proof.
  induction r as [ | | p | r1 IH1 r2 IH2 | r1 IH1 r2 IH2 | r IH];
    intros c s H; simpl in H.
  - inversion H.
  - inversion H.
  - destruct (p c) eqn:E; inversion H; subst. now constructor.
  - destruct (Re.nullable r1) eqn:N.
    + inversion H as [ | | | ? ? ? HL | ? ? ? HR | | ]; subst.
      * inversion HL as [ | | ? ? s1 s2 H1 H2 | | | | ]; subst.
        change (String c (s1 ++ s2)) with (String c s1 ++ s2).
        constructor; auto.
      * change (String c s) with (EmptyString ++ String c s).
        constructor; [now apply nullable_matches | auto].
    + inversion H as [ | | ? ? s1 s2 H1 H2 | | | | ]; subst.
      change (String c (s1 ++ s2)) with (String c s1 ++ s2).
      constructor; auto.
  - inversion H; subst; [apply Re.MAltL | apply Re.MAltR]; auto.
  - inversion H as [ | | ? ? s1 s2 H1 H2 | | | | ]; subst.
    change (String c (s1 ++ s2)) with (String c s1 ++ s2).
    constructor; auto.
Qed.

Lemma deriv_complete (r : Re.regex) (s0 : string) :
  Re.matches r s0 ->
  forall (c : ascii) (s : string), s0 = String c s -> Re.matches (Re.deriv c r) s.
Proof.
  induction 1 as [ | p c0 Hp | r1 r2 s1 s2 H1 IH1 H2 IH2 | r1 r2 s0 _ IH
                 | r1 r2 s0 _ IH | r | r s1 s2 H1 IH1 H2 IH2 ];
    intros c s E; simpl.
  - discriminate.
  - injection E as -> <-. rewrite Hp. constructor.
  - destruct s1 as [|c1 s1]; simpl in E.
    + rewrite (matches_nil_nullable r1 EmptyString H1 eq_refl).
      apply Re.MAltR. now apply IH2.
    + injection E as -> <-.
      destruct (Re.nullable r1); [apply Re.MAltL|];
        (constructor; [now apply IH1 | assumption]).
  - apply Re.MAltL. now apply IH.
  - apply Re.MAltR. now apply IH.
  - discriminate.
  - destruct s1 as [|c1 s1]; simpl in E.
    + now apply IH2.
    + injection E as -> <-. constructor; [now apply IH1 | assumption].
Qed.

(** The matcher decides membership in the language. *)
Lemma accepts_iff (s : string) : forall r : Re.regex,
  Re.accepts r s = true <-> Re.matches r s.
Proof.
  induction s as [|c s IH]; intros r; simpl.
  - apply nullable_matches.
  - rewrite IH. split.
    + apply deriv_sound.
    + intros H. now apply (deriv_complete r (String c s) H).
Qed.

Lemma matches_class (p : ascii -> bool) (s : string) :
  Re.matches (Re.Class p) s <-> exists c, s = String c EmptyString /\ p c = true.
Proof.
  split.
  - intros H. inversion H; subst. eauto.
  - intros [c [-> Hc]]. now constructor.
Qed.

Lemma matches_cat (r1 r2 : Re.regex) (s : string) :
  Re.matches (Re.Cat r1 r2) s <->
  exists s1 s2, s = s1 ++ s2 /\ Re.matches r1 s1 /\ Re.matches r2 s2.
Proof.
  split.
  - intros H. inversion H; subst. eauto.
  - intros [s1 [s2 [-> [H1 H2]]]]. now constructor.
Qed.

Lemma matches_star_class (p : ascii -> bool) (s : string) :
  Re.matches (Re.Star (Re.Class p)) s <-> Py.all_chars p s = true.
Proof.
  split.
  - intros H. remember (Re.Star (Re.Class p)) as r eqn:Er.
    induction H as [ | | | | | r0 | r0 s1 s2 H1 _ H2 IH2 ]; try discriminate.
    + reflexivity.
    + injection Er as ->.
      apply matches_class in H1 as [c [-> Hc]]. simpl.
      now rewrite Hc, IH2.
  - induction s as [|c s IH]; simpl; intros H.
    + constructor.
    + apply andb_true_iff in H as [Hc Hs].
      change (String c s) with (String c EmptyString ++ s).
      constructor; [now constructor | auto].
Qed.

(** One or more characters of a class. *)
Lemma matches_plus_class (p : ascii -> bool) (s : string) :
  Re.matches (Re.Cat (Re.Class p) (Re.Star (Re.Class p))) s <->
  (1 <= String.length s)%nat /\ Py.all_chars p s = true.
Proof.
  rewrite matches_cat. split.
  - intros [s1 [s2 [-> [H1 H2]]]].
    apply matches_class in H1 as [c [-> Hc]].
    apply matches_star_class in H2. simpl. rewrite Hc, H2. split; [lia|reflexivity].
  - intros [Hl Ha]. destruct s as [|c s]; [simpl in Hl; lia|].
    simpl in Ha. apply andb_true_iff in Ha as [Hc Hs].
    exists (String c EmptyString), s. split; [reflexivity|].
    split; [apply matches_class; eauto | now apply matches_star_class].
Qed.

(** Two or more characters of a class. *)
Lemma matches_atleast2_class (p : ascii -> bool) (s : string) :
  Re.matches (Re.Cat (Re.Class p) (Re.Cat (Re.Class p) (Re.Star (Re.Class p)))) s <->
  (2 <= String.length s)%nat /\ Py.all_chars p s = true.
Proof.
  rewrite matches_cat. split.
  - intros [s1 [s2 [-> [H1 H2]]]].
    apply matches_class in H1 as [c [-> Hc]].
    apply matches_plus_class in H2 as [Hl Ha]. simpl.
    rewrite Hc, Ha. split; [lia|reflexivity].
  - intros [Hl Ha]. destruct s as [|c s]; [simpl in Hl; lia|].
    simpl in Ha, Hl. apply andb_true_iff in Ha as [Hc Hs].
    exists (String c EmptyString), s. split; [reflexivity|].
    split; [apply matches_class; eauto|].
    apply matches_plus_class. split; [lia | assumption].
Qed.

(** ** Email *)

Lemma set_letter_ignorecase (c : ascii) :
  Re.in_set [Re.Range "a" "z"] (Py.lower_char c) = is_letter c.
Proof. destruct c as [[] [] [] [] [] [] [] []]; reflexivity. Qed.

Lemma set_local_ignorecase (c : ascii) :
  Re.in_set [Re.Range "a" "z"; Re.Range "0" "9"; Re.Lit "_"; Re.Lit "."]
            (Py.lower_char c)
  = is_local_char c.
Proof. destruct c as [[] [] [] [] [] [] [] []]; reflexivity. Qed.

Lemma set_domain_ignorecase (c : ascii) :
  Re.in_set [Re.Range "a" "z"; Re.Lit "."] (Py.lower_char c) = is_domain_char c.
Proof. destruct c as [[] [] [] [] [] [] [] []]; reflexivity. Qed.

Lemma set_at_ignorecase (c : ascii) :
  Re.in_set [Re.Lit "@"] (Py.lower_char c) = true <-> c = "@"%char.
Proof.
  destruct c as [[] [] [] [] [] [] [] []]; split; intros H;
    try reflexivity; discriminate H.
Qed.

Lemma set_dot_ignorecase (c : ascii) :
  Re.in_set [Re.Lit "."] (Py.lower_char c) = true <-> c = "."%char.
Proof.
  destruct c as [[] [] [] [] [] [] [] []]; split; intros H;
    try reflexivity; discriminate H.
Qed.

(** The strings that [fullmatch(EMAIL_REGULAR, value, flags=IGNORECASE)]
    accepts are those of the pattern in words. *)
Lemma EMAIL_REGULAR_language (s : string) :
  Re.fullmatch dop2.EMAIL_REGULAR s true = true <-> email_pattern s.
Proof.
  unfold Re.fullmatch. rewrite accepts_iff.
  cbn [dop2.EMAIL_REGULAR Re.compile].
  split.
  - intros H.
    apply matches_cat in H as (s1 & t1 & -> & H1 & H).
    apply matches_class in H1 as (c & -> & Hc).
    apply matches_cat in H as (s2 & t2 & -> & H2 & H).
    apply matches_plus_class in H2 as [Hl2 Ha2].
    apply matches_cat in H as (s3 & t3 & -> & H3 & H).
    apply matches_class in H3 as (a & -> & Hat).
    apply matches_cat in H as (s4 & t4 & -> & H4 & H).
    apply matches_plus_class in H4 as [Hl4 Ha4].
    apply matches_cat in H as (s5 & t5 & -> & H5 & H).
    apply matches_class in H5 as (d & -> & Hdot).
    apply matches_atleast2_class in H as [Hl6 Ha6].
    apply set_at_ignorecase in Hat. apply set_dot_ignorecase in Hdot. subst a d.
    rewrite set_letter_ignorecase in Hc.
    rewrite (all_chars_ext _ _ s2 set_local_ignorecase) in Ha2.
    rewrite (all_chars_ext _ _ s4 set_domain_ignorecase) in Ha4.
    rewrite (all_chars_ext _ _ t5 set_letter_ignorecase) in Ha6.
    exists c, s2, s4, t5. repeat (split; [assumption|]).
    split; [reflexivity|]. repeat (split; [assumption|]). assumption.
  - intros (c & local & domain & tld & -> & Hc & Hl2 & Ha2 & Hl4 & Ha4 & Hl6 & Ha6).
    apply matches_cat. exists (String c EmptyString), (local ++ "@" ++ domain ++ "." ++ tld).
    split; [reflexivity|]. split.
    { apply matches_class. exists c. split; [reflexivity|].
      now rewrite set_letter_ignorecase. }
    apply matches_cat. exists local, ("@" ++ domain ++ "." ++ tld).
    split; [reflexivity|]. split.
    { apply matches_plus_class. split; [assumption|].
      now rewrite (all_chars_ext _ _ local set_local_ignorecase). }
    apply matches_cat. exists "@", (domain ++ "." ++ tld).
    split; [reflexivity|]. split.
    { apply matches_class. exists "@"%char. split; reflexivity. }
    apply matches_cat. exists domain, ("." ++ tld).
    split; [reflexivity|]. split.
    { apply matches_plus_class. split; [assumption|].
      now rewrite (all_chars_ext _ _ domain set_domain_ignorecase). }
    apply matches_cat. exists ".", tld.
    split; [reflexivity|]. split.
    { apply matches_class. exists "."%char. split; reflexivity. }
    apply matches_atleast2_class. split; [assumption|].
    now rewrite (all_chars_ext _ _ tld set_letter_ignorecase).
Qed.

(** The [Email] of [dop2.py] accepts exactly the strings of the
    pattern and stores them; it refuses ["bad"]. *)
Lemma dop2_Email_follows_pattern (s : string) :
  (dop2.Email__init__ s = Ok (dop2.mk_Email s) <-> email_pattern s)
  /\ (dop2.Email__init__ s = Raise (ValueError "Invalid email format")
      <-> ~ email_pattern s)
  /\ dop2.Email__init__ "bad" = Raise (ValueError "Invalid email format").
Proof.
  pose proof (EMAIL_REGULAR_language s) as L.
  unfold dop2.Email__init__, dop2.Email_value_setter, dop2.Email_is_valid_email.
  split; [|split; [|reflexivity]].
  - destruct (Re.fullmatch dop2.EMAIL_REGULAR s true); simpl.
    + split; [intros _; now apply L | reflexivity].
    + split; [discriminate | intros H; apply L in H; discriminate].
  - destruct (Re.fullmatch dop2.EMAIL_REGULAR s true); simpl.
    + split; [discriminate | intros H; exfalso; apply H; now apply L].
    + split; [intros _ H; apply L in H; discriminate | reflexivity].
Qed.

Lemma contains_after_prefix (sub pre post : string) :
  Py.contains sub (pre ++ sub ++ post) = true.
Proof.
  induction pre as [|c pre IH]; simpl.
  - assert (P : String.prefix sub (sub ++ post) = true).
    { induction sub as [|d sub IHs]; simpl; [destruct post; reflexivity|].
      destruct (ascii_dec d d) as [_|N]; [exact IHs | contradiction]. }
    revert P. destruct (sub ++ post); simpl; intros ->; reflexivity.
  - rewrite IH. apply orb_true_r.
Qed.

(** The [Email] of [maindz.py] accepts every string of the pattern. *)
Lemma maindz_Email_accepts_pattern (s : string) :
  email_pattern s -> maindz.Email__init__ s = Ok (maindz.mk_Email s).
Proof.
  intros (c & local & domain & tld & -> & _).
  unfold maindz.Email__init__, maindz.Email_is_valid_email.
  change (String c local ++ "@" ++ domain ++ "." ++ tld)
    with (String c local ++ "@" ++ (domain ++ "." ++ tld)).
  now rewrite contains_after_prefix.
Qed.

(** C4, on the code: the [Email] that [maindz.py] defines and [Record]
    uses asks only for an [@]; it accepts ["a@"], which the pattern and
    the [Email] of [dop2.py] refuse; both refuse ["bad"]. *)
Theorem maindz_Email_accepts_any_at :
  maindz.Email__init__ "a@" = Ok (maindz.mk_Email "a@")
  /\ maindz.add_email (maindz.Record__init__ "ann") "a@"
     = Ok (maindz.set_email (maindz.Record__init__ "ann")
             (Some (maindz.mk_Email "a@")))
  /\ Re.fullmatch dop2.EMAIL_REGULAR "a@" true = false
  /\ dop2.Email__init__ "a@" = Raise (ValueError "Invalid email format")
  /\ maindz.Email__init__ "bad" = Raise (ValueError "Invalid email format")
  /\ dop2.Email__init__ "bad" = Raise (ValueError "Invalid email format").
Proof. repeat split; reflexivity. Qed.

(** * Further properties of the code *)

(** ** The address book as a dictionary *)

Lemma dict_get_set_same (d : list (string * maindz.Record_)) (key : string)
  (r : maindz.Record_) :
  maindz.dict_get (maindz.dict_set d key r) key = Some r.
Proof.
  induction d as [|[k w] d IH]; simpl.
  - now rewrite String.eqb_refl.
  - destruct (String.eqb k key) eqn:E; simpl; rewrite E; [reflexivity | exact IH].
Qed.

Lemma dict_get_set_other (d : list (string * maindz.Record_)) (key k' : string)
  (r : maindz.Record_) :
  k' <> key ->
  maindz.dict_get (maindz.dict_set d key r) k' = maindz.dict_get d k'.
Proof.
  intros N. induction d as [|[k w] d IH]; simpl.
  - destruct (String.eqb key k') eqn:E; [|reflexivity].
    apply String.eqb_eq in E. congruence.
  - destruct (String.eqb k key) eqn:E; simpl.
    + apply String.eqb_eq in E. subst k.
      destruct (String.eqb key k') eqn:E'; [|reflexivity].
      apply String.eqb_eq in E'. congruence.
    + now rewrite IH.
Qed.

(** X1: after [book[key] = r], [find(key)] gives [r] and [find] of
    every other key gives what it gave before. *)
Theorem setitem_then_find (address_book : maindz.AddressBook) (key : string)
  (r : maindz.Record_) :
  maindz.find (maindz.AddressBook__setitem__ address_book key r) key = Some r
  /\ forall k', k' <> key ->
       maindz.find (maindz.AddressBook__setitem__ address_book key r) k'
       = maindz.find address_book k'.
Proof.
  unfold maindz.find, maindz.AddressBook__setitem__. simpl. split.
  - apply dict_get_set_same.
  - intros k' N. now apply dict_get_set_other.
Qed.

Lemma dict_set_keys_present (d : list (string * maindz.Record_)) (key : string)
  (r : maindz.Record_) :
  In key (map fst d) -> map fst (maindz.dict_set d key r) = map fst d.
Proof.
  induction d as [|[k w] d IH]; simpl; intros H; [destruct H|].
  destruct (String.eqb k key) eqn:E; simpl; [reflexivity|].
  destruct H as [H|H].
  - subst k. now rewrite String.eqb_refl in E.
  - now rewrite IH.
Qed.

Lemma dict_set_absent (d : list (string * maindz.Record_)) (key : string)
  (r : maindz.Record_) :
  ~ In key (map fst d) -> maindz.dict_set d key r = (d ++ [(key, r)])%list.
Proof.
  induction d as [|[k w] d IH]; simpl; intros H; [reflexivity|].
  destruct (String.eqb k key) eqn:E.
  - apply String.eqb_eq in E. exfalso. apply H. now left.
  - rewrite IH; [reflexivity|]. intros H'. apply H. now right.
Qed.

Lemma dict_set_twice (d : list (string * maindz.Record_)) (key : string)
  (r1 r2 : maindz.Record_) :
  maindz.dict_set (maindz.dict_set d key r1) key r2 = maindz.dict_set d key r2.
Proof.
  induction d as [|[k w] d IH]; simpl.
  - now rewrite String.eqb_refl.
  - destruct (String.eqb k key) eqn:E; simpl; rewrite E; [reflexivity|].
    now rewrite IH.
Qed.

(** X2: storing under a key that is present keeps the keys and their
    order; under a new key it appends the entry; the keys stay distinct;
    and a second store under the same key leaves only the second
    record. *)
Theorem setitem_keys (address_book : maindz.AddressBook) (key : string)
  (r1 r2 : maindz.Record_) :
  (In key (maindz.keys address_book) ->
   maindz.keys (maindz.AddressBook__setitem__ address_book key r1)
   = maindz.keys address_book)
  /\ (~ In key (maindz.keys address_book) ->
      maindz.data (maindz.AddressBook__setitem__ address_book key r1)
      = (maindz.data address_book ++ [(key, r1)])%list)
  /\ (NoDup (maindz.keys address_book) ->
      NoDup (maindz.keys (maindz.AddressBook__setitem__ address_book key r1)))
  /\ maindz.AddressBook__setitem__
       (maindz.AddressBook__setitem__ address_book key r1) key r2
     = maindz.AddressBook__setitem__ address_book key r2.
Proof.
  unfold maindz.keys, maindz.AddressBook__setitem__. simpl.
  split; [|split; [|split]].
  - apply dict_set_keys_present.
  - apply dict_set_absent.
  - intros ND. destruct (in_dec string_dec key (map fst (maindz.data address_book)))
      as [I|I].
    + now rewrite dict_set_keys_present.
    + rewrite dict_set_absent by assumption.
      rewrite map_app. simpl. apply NoDup_app; [assumption | repeat constructor; intros [] |].
      intros x Hx [<-|[]]. contradiction.
  - now rewrite dict_set_twice.
Qed.

(** X2 on an address book with three keys. *)
Lemma setitem_keys_example :
  maindz.keys (maindz.AddressBook__setitem__ book_three "jan" record_dec30)
  = ["ann"; "jan"; "dec"]
  /\ maindz.data (maindz.AddressBook__setitem__ book_three "zed" record_dec30)
     = (maindz.data book_three ++ [("zed", record_dec30)])%list
  /\ NoDup (maindz.keys (maindz.AddressBook__setitem__ book_three "jan" record_dec30)).
Proof.
  pose proof (setitem_keys book_three "jan" record_dec30 record_dec30)
    as (H1 & _ & H3 & _).
  pose proof (setitem_keys book_three "zed" record_dec30 record_dec30)
    as (_ & H2 & _ & _).
  split; [|split].
  - apply H1. simpl. auto.
  - apply H2. simpl. intros [H|[H|[H|[]]]]; discriminate H.
  - apply H3. simpl. repeat constructor; simpl; intuition discriminate.
Defined.

Lemma dict_del_absent (d : list (string * maindz.Record_)) (key : string) :
  ~ In key (map fst d) -> maindz.dict_del d key = d.
Proof.
  induction d as [|[k w] d IH]; simpl; intros H; [reflexivity|].
  destruct (String.eqb k key) eqn:E.
  - apply String.eqb_eq in E. exfalso. apply H. now left.
  - rewrite IH; [reflexivity|]. intros H'. apply H. now right.
Qed.

Lemma dict_get_absent (d : list (string * maindz.Record_)) (key : string) :
  ~ In key (map fst d) -> maindz.dict_get d key = None.
Proof.
  induction d as [|[k w] d IH]; simpl; intros H; [reflexivity|].
  destruct (String.eqb k key) eqn:E.
  - apply String.eqb_eq in E. exfalso. apply H. now left.
  - apply IH. intros H'. apply H. now right.
Qed.

Lemma dict_get_del_same (d : list (string * maindz.Record_)) (key : string) :
  NoDup (map fst d) -> maindz.dict_get (maindz.dict_del d key) key = None.
Proof.
  induction d as [|[k w] d IH]; simpl; intros ND; [reflexivity|].
  inversion ND as [|? ? Hk ND']; subst.
  destruct (String.eqb k key) eqn:E.
  - apply String.eqb_eq in E. subst k. now apply dict_get_absent.
  - simpl. rewrite E. now apply IH.
Qed.

Lemma dict_get_del_other (d : list (string * maindz.Record_)) (key k' : string) :
  k' <> key -> maindz.dict_get (maindz.dict_del d key) k' = maindz.dict_get d k'.
Proof.
  intros N. induction d as [|[k w] d IH]; simpl; [reflexivity|].
  destruct (String.eqb k key) eqn:E; simpl.
  - apply String.eqb_eq in E. subst k.
    destruct (String.eqb key k') eqn:E'; [|reflexivity].
    apply String.eqb_eq in E'. congruence.
  - now rewrite IH.
Qed.

Lemma dict_del_subseq (d : list (string * maindz.Record_)) (key : string) :
  subseq (maindz.dict_del d key) d.
Proof.
  induction d as [|[k w] d IH]; simpl; [constructor|].
  destruct (String.eqb k key).
  - constructor. clear IH. induction d; now constructor.
  - now constructor.
Qed.

Lemma subseq_map {A B : Type} (f : A -> B) (l1 l2 : list A) :
  subseq l1 l2 -> subseq (map f l1) (map f l2).
Proof. induction 1; simpl; now constructor. Qed.

Lemma subseq_In {A : Type} (l1 l2 : list A) (x : A) :
  subseq l1 l2 -> In x l1 -> In x l2.
Proof.
  induction 1 as [|y l1 l2 _ IH|y l1 l2 _ IH]; simpl; intros H.
  - exact H.
  - right. now apply IH.
  - destruct H as [H|H]; [now left | right; now apply IH].
Qed.

Lemma subseq_NoDup {A : Type} (l1 l2 : list A) :
  subseq l1 l2 -> NoDup l2 -> NoDup l1.
Proof.
  induction 1 as [|y l1 l2 S IH|y l1 l2 S IH]; intros ND.
  - constructor.
  - inversion ND; subst. now apply IH.
  - inversion ND as [|? ? Hy ND']; subst. constructor; [|now apply IH].
    intros H. apply Hy. now apply (subseq_In l1 l2 y S).
Qed.

(** X3: [delete] of a name that is not a key leaves the address book as
    it is; in an address book with distinct keys, [delete] of a key makes
    [find] of it give [None]; in every case the other names are found
    as before, the remaining entries keep their order and the keys stay
    distinct. *)
Theorem delete_behaviour (address_book : maindz.AddressBook) (name : string)
  (ND : NoDup (maindz.keys address_book)) :
  (~ In name (maindz.keys address_book) ->
   maindz.delete address_book name = address_book)
  /\ maindz.find (maindz.delete address_book name) name = None
  /\ (forall k', k' <> name ->
       maindz.find (maindz.delete address_book name) k'
       = maindz.find address_book k')
  /\ subseq (maindz.data (maindz.delete address_book name))
            (maindz.data address_book)
  /\ NoDup (maindz.keys (maindz.delete address_book name)).
Proof.
  unfold maindz.find, maindz.delete, maindz.keys in *. simpl.
  split; [|split; [|split; [|split]]].
  - intros H. rewrite dict_del_absent by assumption. now destruct address_book.
  - now apply dict_get_del_same.
  - intros k' N. now apply dict_get_del_other.
  - apply dict_del_subseq.
  - apply (subseq_NoDup _ (map fst (maindz.data address_book))); [|assumption].
    apply subseq_map, dict_del_subseq.
Qed.

(** X3 on an address book with three keys. *)
Lemma delete_behaviour_example :
  NoDup (maindz.keys book_three)
  /\ maindz.delete book_three "x" = book_three
  /\ maindz.find (maindz.delete book_three "jan") "jan" = None
  /\ maindz.find (maindz.delete book_three "jan") "dec" = Some record_dec30.
Proof.
  assert (ND : NoDup (maindz.keys book_three)).
  { simpl. repeat constructor; simpl; intuition discriminate. }
  split; [exact ND|].
  pose proof (delete_behaviour book_three "x" ND) as (H1 & _).
  pose proof (delete_behaviour book_three "jan" ND) as (_ & H2 & H3 & _).
  split; [|split].
  - apply H1. simpl. intros [H|[H|[H|[]]]]; discriminate H.
  - exact H2.
  - rewrite H3; [reflexivity | discriminate].
Defined.

(** ** Record: phones *)

(** X4: [add_phone] succeeds exactly for the values [Phone] accepts; it
    then puts the new phone after the phones already stored and changes
    nothing else, so a record whose phones are all valid stays so; for
    every other value it raises [ValueError]. *)
Theorem add_phone_appends (self : maindz.Record_) (phone : string) :
  (maindz.Phone_is_valid_phone phone = true ->
   maindz.add_phone self phone
   = Ok (maindz.set_phones self
           (maindz.phones self ++ [maindz.mk_Phone phone])%list))
  /\ (maindz.Phone_is_valid_phone phone = false ->
      maindz.add_phone self phone
      = Raise (ValueError "Invalid phone number format"))
  /\ (forall self', maindz.add_phone self phone = Ok self' ->
      (Forall valid_phone (maindz.phones self) ->
       Forall valid_phone (maindz.phones self'))
      /\ maindz.name self' = maindz.name self
      /\ maindz.email self' = maindz.email self
      /\ maindz.birthday self' = maindz.birthday self
      /\ maindz.address self' = maindz.address self).
Proof.
  unfold maindz.add_phone, maindz.Phone__init__.
  destruct (maindz.Phone_is_valid_phone phone) eqn:E; simpl.
  - split; [reflexivity|]. split; [discriminate|].
    intros self' H. injection H as <-. simpl.
    split; [|repeat split].
    intros F. apply Forall_app. split; [assumption|].
    constructor; [exact E | constructor].
  - split; [discriminate|]. split; [reflexivity|]. discriminate.
Qed.

(** X4 on a record with one phone. *)
Lemma add_phone_appends_example :
  maindz.add_phone record_one_phone "5555555555"
  = Ok (maindz.set_phones record_one_phone
          [maindz.mk_Phone "0123456789"; maindz.mk_Phone "5555555555"])
  /\ maindz.add_phone record_one_phone "555"
     = Raise (ValueError "Invalid phone number format").
Proof.
  pose proof (add_phone_appends record_one_phone "5555555555") as (H1 & _).
  pose proof (add_phone_appends record_one_phone "555") as (_ & H2 & _).
  split; [apply H1 | apply H2]; reflexivity.
Defined.

Lemma edit_phone_loop_first (pre post : list maindz.Phone) (p : maindz.Phone)
  (old_phone new_phone : string) :
  maindz.Phone_value p = old_phone ->
  (forall q, In q pre -> maindz.Phone_value q <> old_phone) ->
  maindz.edit_phone_loop (pre ++ p :: post) old_phone new_phone
  = Some (pre ++ maindz.mk_Phone new_phone :: post)%list.
Proof.
  intros Hp. induction pre as [|q pre IH]; intros Hpre; simpl.
  - rewrite Hp, String.eqb_refl. reflexivity.
  - destruct (String.eqb (maindz.Phone_value q) old_phone) eqn:E.
    + apply String.eqb_eq in E. exfalso. apply (Hpre q); [now left | exact E].
    + rewrite IH; [reflexivity|]. intros q' Hq'. apply Hpre. now right.
Qed.

(** X5: [edit_phone] changes the first stored phone equal to
    [old_phone] and no other: the phones before it, the phones after it
    (equal ones too) and the other fields stay as they were. *)
Theorem edit_phone_first_match (self : maindz.Record_)
  (pre post : list maindz.Phone) (p : maindz.Phone) (old_phone new_phone : string)
  (Hphones : maindz.phones self = (pre ++ p :: post)%list)
  (Hp : maindz.Phone_value p = old_phone)
  (Hpre : forall q, In q pre -> maindz.Phone_value q <> old_phone) :
  maindz.edit_phone self old_phone new_phone
  = Ok (maindz.set_phones self (pre ++ maindz.mk_Phone new_phone :: post)%list).
Proof.
  unfold maindz.edit_phone. rewrite Hphones.
  now rewrite (edit_phone_loop_first pre post p old_phone new_phone Hp Hpre).
Qed.

(** X5 on a record that holds the same phone twice. *)
Lemma edit_phone_first_match_example :
  maindz.edit_phone record_three_phones "0123456789" "7777777777"
  = Ok (maindz.set_phones record_three_phones
          [maindz.mk_Phone "1111111111"; maindz.mk_Phone "7777777777";
           maindz.mk_Phone "0123456789"]).
Proof.
  apply (edit_phone_first_match record_three_phones
           [maindz.mk_Phone "1111111111"] [maindz.mk_Phone "0123456789"]
           (maindz.mk_Phone "0123456789") "0123456789" "7777777777").
  - reflexivity.
  - reflexivity.
  - intros q [<-|[]]. simpl. discriminate.
Defined.

(** ** AddressBook.search: the two modes *)

Lemma int_of_char_digit (c : ascii) :
  match Py.int (String c EmptyString) with Ok _ => true | Raise _ => false end
  = Py.is_ascii_digit c.
Proof. destruct c as [[] [] [] [] [] [] [] []]; reflexivity. Qed.

Lemma search_mode (query : string) :
  match (c <- maindz.getitem0 query ;; Py.int c) with
  | Ok _ => true
  | Raise _ => false
  end = starts_with_digit query.
Proof.
  destruct query as [|c s]; simpl; [reflexivity|]. apply int_of_char_digit.
Qed.

Lemma flat_map_filter {A B : Type} (f : A -> bool) (g : A -> B) (l : list A) :
  flat_map (fun x => if f x then [g x] else []) l = map g (filter f l).
Proof.
  induction l as [|x l IH]; simpl; [reflexivity|].
  destruct (f x); simpl; now rewrite IH.
Qed.

(** X6: [search] never fails.  A query that does not start with one of
    the digits 0-9 (the empty query too) is looked for in the names:
    the result is the records whose name contains it, case apart, once
    each and in the order of the address book.  A query that starts with
    a digit is looked for in the phones only: a record is in the result
    exactly when one of its phones contains the query. *)
Theorem search_two_modes (address_book : maindz.AddressBook) (query : string) :
  (starts_with_digit query = false ->
   maindz.search address_book query
   = Ok (map snd (filter (name_matches query) (maindz.data address_book))))
  /\ (starts_with_digit query = true ->
      exists results,
        maindz.search address_book query = Ok results
        /\ forall r, In r results <->
             In r (maindz.values address_book)
             /\ exists phone, In phone (maindz.phones r)
                              /\ phone_matches query phone = true).
Proof.
  pose proof (search_mode query) as M.
  unfold maindz.search.
  destruct (c <- maindz.getitem0 query ;; Py.int c) as [n|e]; split; intros H;
    rewrite H in M; try discriminate.
  - eexists. split; [reflexivity|]. intros r.
    unfold maindz.values. rewrite in_flat_map. split.
    + intros [[name record] [Hin Hr]]. apply in_flat_map in Hr as [phone [Hp Hm]].
      destruct (Py.contains (Py.lower query) (Py.lower (maindz.Phone_value phone)))
        eqn:E; [|destruct Hm].
      destruct Hm as [<-|[]]. split.
      * apply in_map_iff. now exists (name, record).
      * now exists phone.
    + intros [Hin [phone [Hp Hm]]]. apply in_map_iff in Hin as [[name record] [<- Hin]].
      exists (name, record). split; [assumption|].
      apply in_flat_map. exists phone. split; [assumption|].
      unfold phone_matches in Hm. rewrite Hm. now left.
  - f_equal. rewrite <- flat_map_filter. apply flat_map_ext.
    intros [name record]. reflexivity.
Qed.

(** X6 on an address book with three records. *)
Lemma search_two_modes_example :
  maindz.search book_three "AN" = Ok [record_one_phone; record_jan2]
  /\ maindz.search book_three "+0" = Ok []
  /\ exists results, maindz.search book_three "0123" = Ok results
                     /\ In record_one_phone results.
Proof.
  split; [|split].
  - apply (proj1 (search_two_modes book_three "AN")). reflexivity.
  - apply (proj1 (search_two_modes book_three "+0")). reflexivity.
  - destruct (proj2 (search_two_modes book_three "0123") eq_refl)
      as [results [E H]].
    exists results. split; [exact E|].
    apply H. split; [simpl; auto|].
    exists (maindz.mk_Phone "0123456789"). split; [now left | reflexivity].
Defined.

Lemma lower_char_idempotent (c : ascii) :
  Py.lower_char (Py.lower_char c) = Py.lower_char c.
Proof. destruct c as [[] [] [] [] [] [] [] []]; reflexivity. Qed.

Lemma lower_idempotent (s : string) : Py.lower (Py.lower s) = Py.lower s.
Proof.
  induction s as [|c s IH]; simpl; [reflexivity|].
  now rewrite lower_char_idempotent, IH.
Qed.

Lemma lower_char_digit (c : ascii) :
  Py.is_ascii_digit (Py.lower_char c) = Py.is_ascii_digit c.
Proof. destruct c as [[] [] [] [] [] [] [] []]; reflexivity. Qed.

(** X7: [search] does not see the case of the query: a query and its
    lower-case form give the same result, in both modes. *)
Theorem search_ignores_case (address_book : maindz.AddressBook) (query : string) :
  maindz.search address_book (Py.lower query) = maindz.search address_book query.
Proof.
  pose proof (search_mode query) as M.
  pose proof (search_mode (Py.lower query)) as M'.
  assert (D : starts_with_digit (Py.lower query) = starts_with_digit query).
  { destruct query; simpl; [reflexivity | apply lower_char_digit]. }
  rewrite D in M'. unfold maindz.search in *.
  rewrite lower_idempotent.
  destruct (c <- maindz.getitem0 query ;; Py.int c);
    destruct (c <- maindz.getitem0 (Py.lower query) ;; Py.int c);
    try reflexivity; rewrite <- M in M'; discriminate.
Qed.

(** ** AddressBookIterator: page sizes that are not positive *)

Lemma next_calls_stopped (address_book : maindz.AddressBook)
  (it : maindz.AddressBookIterator) :
  maindz.AddressBookIterator__next__ address_book it = (Raise StopIteration, it) ->
  forall k i : nat, (i < k)%nat ->
  nth_error (next_calls address_book it k) i = Some (Raise StopIteration).
Proof.
  intros H. induction k as [|k IH]; intros i Hi; [lia|].
  cbn [next_calls]. rewrite H.
  destruct i as [|i]; [reflexivity|]. cbn [nth_error]. apply IH. lia.
Qed.

Lemma slice_backwards {A : Type} (l : list A) (a b : Z) :
  Py.clamp (Z.of_nat (List.length l)) b <= Py.clamp (Z.of_nat (List.length l)) a ->
  Py.slice l a b = [].
Proof.
  intros H. unfold Py.slice.
  replace (Z.to_nat _) with 0%nat by lia. reflexivity.
Qed.

Lemma next_of_nil (address_book : maindz.AddressBook)
  (it : maindz.AddressBookIterator) :
  Py.slice (maindz.values address_book)
    (maindz.current_page it * maindz.items_per_page it)
    (maindz.current_page it * maindz.items_per_page it + maindz.items_per_page it)
  = [] ->
  maindz.AddressBookIterator__next__ address_book it = (Raise StopIteration, it).
Proof. intros H. unfold maindz.AddressBookIterator__next__. now rewrite H. Qed.

(** X8: with a page size that is not positive the iterator gives at
    most one batch.  Page size 0 gives none; a negative page size [p]
    gives the records but the last [-p] as the only batch, when there
    are more than [-p] records; every later call raises
    [StopIteration]. *)
Theorem nonpositive_page_size (address_book : maindz.AddressBook) (p : Z)
  (Hp : p <= 0) :
  let l := maindz.values address_book in
  let n := Z.of_nat (List.length l) in
  fst (maindz.AddressBookIterator__next__ address_book
         (maindz.AddressBookIterator__init__ p))
  = match firstn (Z.to_nat (if p <? 0 then n + p else 0)) l with
    | [] => Raise StopIteration
    | records => Ok records
    end
  /\ forall k i : nat, (1 <= i < k)%nat ->
     nth_error (next_calls address_book (maindz.AddressBookIterator__init__ p) k) i
     = Some (Raise StopIteration).
Proof.
  intros l n.
  assert (S0 : Py.slice l (0 * p) (0 * p + p)
               = firstn (Z.to_nat (if p <? 0 then n + p else 0)) l).
  { assert (Hn : 0 <= n) by (unfold n; lia).
    unfold Py.slice, Py.clamp. fold n. simpl (0 * p).
    change (0 <? 0) with false. cbv iota.
    replace (Z.min 0 n) with 0 by lia. simpl (Z.to_nat 0). cbn [skipn].
    destruct (Z.ltb_spec p 0) as [N|N].
    - replace (0 + p <? 0) with true by (symmetry; apply Z.ltb_lt; lia).
      f_equal. lia.
    - replace p with 0 by lia. simpl (0 + 0 <? 0). cbv iota.
      replace (Z.min (0 + 0) n) with 0 by lia. reflexivity. }
  assert (S1 : Py.slice l (1 * p) (1 * p + p) = []).
  { apply slice_backwards. fold n. unfold Py.clamp.
    assert (Hn : 0 <= n) by (unfold n; lia).
    destruct (Z.ltb_spec (1 * p) 0), (Z.ltb_spec (1 * p + p) 0); lia. }
  unfold maindz.AddressBookIterator__init__.
  assert (N0 : maindz.AddressBookIterator__next__ address_book
                 (maindz.mk_AddressBookIterator p 0)
               = match firstn (Z.to_nat (if p <? 0 then n + p else 0)) l with
                 | [] => (Raise StopIteration, maindz.mk_AddressBookIterator p 0)
                 | records => (Ok records, maindz.mk_AddressBookIterator p 1)
                 end).
  { unfold maindz.AddressBookIterator__next__.
    cbn [maindz.current_page maindz.items_per_page]. fold l. rewrite S0.
    destruct (firstn _ l); reflexivity. }
  split.
  - rewrite N0. destruct (firstn _ l); reflexivity.
  - intros k i [Hi1 Hik].
    destruct k as [|k]; [lia|]. destruct i as [|i]; [lia|].
    cbn [next_calls]. rewrite N0.
    destruct (firstn _ l) eqn:E; cbn [nth_error].
    + apply next_calls_stopped; [exact N0 | lia].
    + apply next_calls_stopped; [|lia].
      apply next_of_nil.
      cbn [maindz.current_page maindz.items_per_page]. fold l. exact S1.
Qed.

(** X8 on 12 records with page sizes 0 and -2. *)
Lemma nonpositive_page_size_example :
  0 <= 0 /\ -2 <= 0
  /\ nth_error (next_calls (book_of twelve_records)
                  (maindz.AddressBookIterator__init__ 0) 3) 1
     = Some (Raise StopIteration)
  /\ fst (maindz.AddressBookIterator__next__ (book_of twelve_records)
            (maindz.AddressBookIterator__init__ (-2)))
     = Ok (firstn 10 twelve_records)
  /\ nth_error (next_calls (book_of twelve_records)
                  (maindz.AddressBookIterator__init__ (-2)) 3) 2
     = Some (Raise StopIteration).
Proof.
  split; [lia|]. split; [lia|].
  pose proof (nonpositive_page_size (book_of twelve_records) 0 ltac:(lia))
    as [_ H0].
  pose proof (nonpositive_page_size (book_of twelve_records) (-2) ltac:(lia))
    as [H1 H2].
  split; [|split].
  - apply H0. lia.
  - exact H1.
  - apply H2. lia.
Defined.

(** ** dop2: the Email setter and the note store *)

(** X9: the [Email] of [dop2.py] checks the pattern at construction and
    at every assignment to [value]: an object built or changed with
    success holds the string given, which matches the pattern, and an
    assignment of a string that does not match raises [ValueError]. *)
Theorem dop2_Email_value_always_matches (e : dop2.Email) (s : string) :
  (forall e', dop2.Email__init__ s = Ok e' ->
     dop2.Email_value e' = s /\ email_pattern (dop2.Email_value e'))
  /\ (forall e', dop2.Email_value_setter e s = Ok e' ->
     dop2.Email_value e' = s /\ email_pattern (dop2.Email_value e'))
  /\ (dop2.Email_value_setter e s = Raise (ValueError "Invalid email format")
      <-> ~ email_pattern s).
Proof.
  pose proof (EMAIL_REGULAR_language s) as L.
  unfold dop2.Email__init__, dop2.Email_value_setter, dop2.Email_is_valid_email.
  destruct (Re.fullmatch dop2.EMAIL_REGULAR s true); simpl.
  - assert (P : email_pattern s) by now apply L.
    split; [|split].
    + intros e' H. injection H as <-. now split.
    + intros e' H. injection H as <-. now split.
    + split; [discriminate | intros N; contradiction].
  - assert (N : ~ email_pattern s) by (intros P; apply L in P; discriminate).
    split; [|split].
    + discriminate.
    + discriminate.
    + split; [intros _; exact N | reflexivity].
Qed.

Lemma rename_authors (l : list dop2.Notes) (old_author new_author : string) :
  let l' := dop2.notes (fst (dop2.update_notes_author (dop2.mk_NoteManager l)
                               old_author new_author)) in
  map dop2.text l' = map dop2.text l
  /\ map dop2.tags l' = map dop2.tags l
  /\ map dop2.author l'
     = map (fun a => if String.eqb a old_author then new_author else a)
           (map dop2.author l).
Proof.
  simpl. induction l as [|note l (IH1 & IH2 & IH3)]; simpl; [repeat split|].
  rewrite IH1, IH2, IH3.
  destruct (String.eqb (dop2.author note) old_author); repeat split.
Qed.

(** X10: [update_notes_author] keeps the number, the order, the texts
    and the tags of the notes; it gives the new author to exactly the
    notes of the old author, so no note of the old author is left when
    the two names differ; and the file it saves holds the notes as it
    leaves them, which [load_notes] gives back. *)
Theorem update_notes_author_renames (self : dop2.NoteManager)
  (old_author new_author : string) :
  let self' := fst (dop2.update_notes_author self old_author new_author) in
  let file := snd (dop2.update_notes_author self old_author new_author) in
  map dop2.text (dop2.notes self') = map dop2.text (dop2.notes self)
  /\ map dop2.tags (dop2.notes self') = map dop2.tags (dop2.notes self)
  /\ map dop2.author (dop2.notes self')
     = map (fun a => if String.eqb a old_author then new_author else a)
           (map dop2.author (dop2.notes self))
  /\ (old_author <> new_author ->
      ~ In old_author (map dop2.author (dop2.notes self')))
  /\ dop2.load_notes dop2.NoteManager__init__ (Some file) = self'.
Proof.
  destruct self as [l]. intros self' file.
  destruct (rename_authors l old_author new_author) as (H1 & H2 & H3).
  split; [exact H1|]. split; [exact H2|]. split; [exact H3|]. split.
  - intros N. unfold self'. rewrite H3. intros I.
    apply in_map_iff in I as [a [Ha _]].
    destruct (String.eqb a old_author) eqn:E.
    + congruence.
    + apply String.eqb_neq in E. congruence.
  - reflexivity.
Qed.

(** X10 through its consequence for two different names. *)
Lemma update_notes_author_example :
  ~ In "alice"
      (map dop2.author
         (dop2.notes (fst (dop2.update_notes_author alice_store "alice" "bob")))).
Proof.
  apply (update_notes_author_renames alice_store "alice" "bob").
  discriminate.
Defined.

(** X11: a note added with [add_note_with_tags] is the last one, and
    [delete_note] at the last index removes it again: the store is as
    before, the call prints the note and returns [None]. *)
Theorem add_then_delete_last (self : dop2.NoteManager) (author text : string)
  (tags : option (list string)) :
  let added := dop2.add_note_with_tags self author text tags in
  let last := Z.of_nat (List.length (dop2.notes self)) + 1 in
  List.length (dop2.notes added) = S (List.length (dop2.notes self))
  /\ dop2.delete_note added last
     = dop2.mk_outcome self
         ["Note " ++ Py.str_of_int last ++ " deleted: "
          ++ text ++ " (by " ++ author ++ ", Tags: "
          ++ Py.join ", " (match tags with Some t => t | None => [] end)
          ++ ")"]
         (Ok None).
Proof.
  destruct self as [l]. intros added last. unfold added, last.
  clear added last.
  unfold dop2.add_note_with_tags. simpl dop2.notes.
  split; [rewrite length_app; simpl; lia|].
  unfold dop2.delete_note. simpl dop2.notes.
  rewrite length_app. simpl List.length.
  replace ((1 <=? Z.of_nat (List.length l) + 1)
           && (Z.of_nat (List.length l) + 1 <=? Z.of_nat (List.length l + 1)))
    with true by (symmetry; apply andb_true_iff; split; apply Z.leb_le; lia).
  replace (Z.to_nat (Z.of_nat (List.length l) + 1 - 1)) with (List.length l) by lia.
  unfold dop2.pop.
  rewrite nth_error_app2 by lia. rewrite Nat.sub_diag. cbn [nth_error].
  rewrite firstn_app, Nat.sub_diag, firstn_all, app_nil_r.
  rewrite skipn_all2 by (rewrite length_app; simpl; lia).
  rewrite app_nil_r. reflexivity.
Qed.

(** ** get_upcoming_birthdays: what holds at every time of day *)

Lemma upcoming_loop_In (today : Datetime.datetime) (days_count : maindz.days_value)
  (records l : list maindz.Record_) :
  maindz.upcoming_loop today records days_count = Ok l ->
  subseq l records
  /\ forall r, In r l ->
       exists b, maindz.birthday r = Some b
                 /\ maindz.birthday_is_upcoming today b days_count = Ok true.
Proof.
  revert l. induction records as [|record records IH]; intros l H; simpl in H.
  - injection H as <-. split; [constructor | intros r []].
  - destruct (maindz.birthday record) as [b|] eqn:Eb.
    + destruct (maindz.birthday_is_upcoming today b days_count) as [keep|e] eqn:Ek;
        simpl in H; [|discriminate].
      destruct (maindz.upcoming_loop today records days_count) as [up|e] eqn:Eu;
        simpl in H; [|discriminate].
      destruct (IH up eq_refl) as [S I].
      injection H as <-. destruct keep.
      * split; [now constructor|].
        intros r [<-|Hr]; [now exists b | now apply I].
      * split; [now constructor | exact I].
    + simpl in H.
      destruct (maindz.upcoming_loop today records days_count) as [up|e] eqn:Eu;
        simpl in H; [|discriminate].
      destruct (IH up eq_refl) as [S I].
      injection H as <-. split; [now constructor | exact I].
Qed.

(** The day count of a record does not depend on [days_count]. *)
Lemma birthday_is_upcoming_delta (today : Datetime.datetime) (b : maindz.pyobject) :
  exists delta_days : result Z,
    forall days_count,
      maindz.birthday_is_upcoming today b days_count
      = (d <- delta_days ;; maindz.in_window d days_count).
Proof.
  unfold maindz.birthday_is_upcoming.
  destruct (maindz.getattr_month b) as [m|e]; [|now exists (Raise e)].
  destruct (maindz.getattr_day b) as [d|e]; [|now exists (Raise e)].
  simpl.
  destruct (Datetime.new (Datetime.year today) m d) as [nb|e];
    [|now exists (Raise e)].
  simpl.
  destruct (if Datetime.lt nb today
            then Datetime.new (Datetime.year today + 1) m d else Ok nb)
    as [nb'|e]; [|now exists (Raise e)].
  simpl. now exists (Ok (Datetime.days (Datetime.sub nb' today))).
Qed.

Lemma birthday_is_upcoming_mono (today : Datetime.datetime) (b : maindz.pyobject)
  (n m : Z) (keep : bool) :
  n <= m ->
  maindz.birthday_is_upcoming today b (maindz.DaysInt n) = Ok keep ->
  exists keep', maindz.birthday_is_upcoming today b (maindz.DaysInt m) = Ok keep'
                /\ (keep = true -> keep' = true).
Proof.
  intros Hnm. destruct (birthday_is_upcoming_delta today b) as [[d|e] H];
    rewrite !H; simpl; [|discriminate].
  unfold maindz.in_window. destruct (0 <=? d).
  - intros E. injection E as <-. eexists. split; [reflexivity|].
    intros K. apply Z.leb_le in K. apply Z.leb_le. lia.
  - intros E. injection E as <-. eexists. split; [reflexivity | discriminate].
Qed.

Lemma upcoming_loop_mono (today : Datetime.datetime) (n m : Z)
  (records l1 : list maindz.Record_) :
  n <= m ->
  maindz.upcoming_loop today records (maindz.DaysInt n) = Ok l1 ->
  exists l2, maindz.upcoming_loop today records (maindz.DaysInt m) = Ok l2
             /\ subseq l1 l2.
Proof.
  intros Hnm. revert l1.
  induction records as [|record records IH]; intros l1 H; simpl in *.
  - injection H as <-. exists []. split; [reflexivity | constructor].
  - destruct (maindz.birthday record) as [b|] eqn:Eb.
    + destruct (maindz.birthday_is_upcoming today b (maindz.DaysInt n))
        as [keep|e] eqn:Ek; simpl in H; [|discriminate].
      destruct (maindz.upcoming_loop today records (maindz.DaysInt n))
        as [up|e] eqn:Eu; simpl in H; [|discriminate].
      destruct (birthday_is_upcoming_mono today b n m keep Hnm Ek)
        as [keep' [Ek' K]].
      destruct (IH up eq_refl) as [up' [Eu' S]].
      rewrite Ek'. simpl. rewrite Eu'. simpl.
      injection H as <-. eexists. split; [reflexivity|].
      destruct keep.
      * rewrite (K eq_refl). now constructor.
      * destruct keep'; [now constructor | exact S].
    + simpl in H.
      destruct (maindz.upcoming_loop today records (maindz.DaysInt n))
        as [up|e] eqn:Eu; simpl in H; [|discriminate].
      destruct (IH up eq_refl) as [up' [Eu' S]].
      rewrite Eu'. simpl. injection H as <-. now exists up'.
Qed.

(** X12: when the query returns for [n] days it returns for every
    larger number of days, with the same records and possibly more;
    what it returns are records of the address book in its order, each
    with a birthday set. *)
Theorem upcoming_grows_with_days (today : Datetime.datetime)
  (address_book : maindz.AddressBook) (n m : Z) (l1 : list maindz.Record_)
  (Hnm : n <= m)
  (H1 : maindz.get_upcoming_birthdays today address_book (maindz.DaysInt n) = Ok l1) :
  exists l2,
    maindz.get_upcoming_birthdays today address_book (maindz.DaysInt m) = Ok l2
    /\ subseq l1 l2
    /\ subseq l2 (maindz.values address_book)
    /\ forall r, In r l2 -> maindz.birthday r <> None.
Proof.
  unfold maindz.get_upcoming_birthdays in *.
  destruct (upcoming_loop_mono today n m (maindz.values address_book) l1 Hnm H1)
    as [l2 [H2 S]].
  exists l2. split; [exact H2|]. split; [exact S|].
  destruct (upcoming_loop_In today (maindz.DaysInt m) _ l2 H2) as [S2 I].
  split; [exact S2|].
  intros r Hr. destruct (I r Hr) as [b [Eb _]]. congruence.
Qed.

(** X12 at midnight of 2024-12-30 with 2 and 5 days. *)
Lemma upcoming_grows_with_days_example :
  exists l2,
    maindz.get_upcoming_birthdays today_midnight
      (book_of [record_jan2; record_dec30]) (maindz.DaysInt 5) = Ok l2
    /\ subseq [record_dec30] l2.
Proof.
  destruct (upcoming_grows_with_days today_midnight
              (book_of [record_jan2; record_dec30]) 2 5 [record_dec30]
              ltac:(lia) eq_refl) as [l2 (H & S & _)].
  exists l2. now split.
Defined.

Lemma upcoming_loop_raises (today : Datetime.datetime)
  (days_count : maindz.days_value) (records : list maindz.Record_)
  (r : maindz.Record_) (b : maindz.pyobject) (e : exception) :
  In r records -> maindz.birthday r = Some b ->
  maindz.birthday_is_upcoming today b days_count = Raise e ->
  exists e', maindz.upcoming_loop today records days_count = Raise e'.
Proof.
  intros Hin Hb He. induction records as [|record records IH]; [destruct Hin|].
  simpl. destruct Hin as [->|Hin].
  - rewrite Hb, He. now exists e.
  - destruct (match maindz.birthday record with
              | Some b0 => maindz.birthday_is_upcoming today b0 days_count
              | None => Ok false
              end) as [keep|e0]; simpl; [|now exists e0].
    destruct (IH Hin) as [e' ->]. now exists e'.
Qed.

(** X13: in a year that is not a leap year, one record born on
    February 29 makes the whole query end with an exception (the
    [ValueError] of [datetime(year, 2, 29)], unless an earlier record
    raised first), whatever [days_count] is. *)
Theorem leap_day_birthday_raises (today : Datetime.datetime)
  (address_book : maindz.AddressBook) (days_count : maindz.days_value)
  (r : maindz.Record_)
  (Hleap : Datetime._is_leap (Datetime.year today) = false)
  (Hin : In r (maindz.values address_book))
  (Hborn : born_on r 2 29) :
  (exists e, maindz.get_upcoming_birthdays today address_book days_count = Raise e)
  /\ forall b, maindz.birthday r = Some b ->
       exists msg,
         maindz.birthday_is_upcoming today b days_count = Raise (ValueError msg).
Proof.
  destruct Hborn as [y Hb].
  assert (E : exists msg,
            maindz.birthday_is_upcoming today
              (maindz.DateObject (Datetime.mk_date y 2 29)) days_count
            = Raise (ValueError msg)).
  { unfold maindz.birthday_is_upcoming. simpl.
    unfold Datetime.new, Datetime._check_date_fields, Datetime._days_in_month.
    rewrite Hleap. simpl. rewrite !andb_false_r. simpl. eexists. reflexivity. }
  destruct E as [msg E]. split.
  - apply (upcoming_loop_raises today days_count _ r _ _ Hin Hb E).
  - intros b Hb'. rewrite Hb in Hb'. injection Hb' as <-.
    exists msg. exact E.
Qed.

(** X13 in 2025. *)
Lemma leap_day_birthday_raises_example :
  exists e,
    maindz.get_upcoming_birthdays (Datetime.mk_datetime 2025 3 1 0 0 0 0)
      (book_of [record_jan2;
                record_with_birthday "leap"
                  (maindz.DateObject (Datetime.mk_date 2000 2 29))])
      (maindz.DaysInt 400) = Raise e.
Proof.
  apply (leap_day_birthday_raises (Datetime.mk_datetime 2025 3 1 0 0 0 0)
           (book_of [record_jan2;
                     record_with_birthday "leap"
                       (maindz.DateObject (Datetime.mk_date 2000 2 29))])
           (maindz.DaysInt 400)
           (record_with_birthday "leap"
              (maindz.DateObject (Datetime.mk_date 2000 2 29)))).
  - reflexivity.
  - simpl. auto.
  - now exists 2000.
Defined.

(** ** get_upcoming_birthdays: the time of day *)

Lemma year_length (y : Z) :
  Datetime._days_before_year (y + 1) - Datetime._days_before_year y
  = 365 + (if Datetime._is_leap y then 1 else 0).
Proof.
  unfold Datetime._days_before_year, Datetime._is_leap.
  replace (y + 1 - 1) with y by lia.
  destruct (Z.eqb_spec (y mod 4) 0) as [H4|H4];
    destruct (Z.eqb_spec (y mod 100) 0) as [H100|H100];
    destruct (Z.eqb_spec (y mod 400) 0) as [H400|H400];
    cbn [andb orb negb]; Z.div_mod_to_equations; lia.
Qed.

Lemma ordinal_next_year (y m d : Z) :
  365 <= Datetime._ymd2ord (y + 1) m d - Datetime._ymd2ord y m d.
Proof.
  unfold Datetime._ymd2ord, Datetime._days_before_month.
  pose proof (year_length y) as Y.
  destruct (2 <? m), (Datetime._is_leap y), (Datetime._is_leap (y + 1));
    cbn [andb] in *; lia.
Qed.

Lemma lt_midnight_same_day (y m d h mi s us : Z) :
  0 <= h -> 0 <= mi -> 0 <= s -> 0 <= us ->
  ~ (h = 0 /\ mi = 0 /\ s = 0 /\ us = 0) ->
  Datetime.lt (Datetime.mk_datetime y m d 0 0 0 0)
              (Datetime.mk_datetime y m d h mi s us) = true.
Proof.
  intros Hh Hmi Hs Hus N. unfold Datetime.lt, Datetime.fields.
  cbn [Datetime.year Datetime.month Datetime.day Datetime.hour Datetime.minute
       Datetime.second Datetime.microsecond Datetime._cmp].
  rewrite !Z.compare_refl.
  destruct (Z.compare_spec 0 h) as [<-|_|G]; [|reflexivity|lia].
  destruct (Z.compare_spec 0 mi) as [<-|_|G]; [|reflexivity|lia].
  destruct (Z.compare_spec 0 s) as [<-|_|G]; [|reflexivity|lia].
  destruct (Z.compare_spec 0 us) as [<-|_|G]; [|reflexivity|lia].
  exfalso. apply N. repeat split.
Qed.

Lemma check_next_year (y m d : Z) :
  Datetime._check_date_fields y m d = true -> y < 9999 ->
  ~ (m = 2 /\ d = 29) ->
  Datetime._check_date_fields (y + 1) m d = true.
Proof.
  unfold Datetime._check_date_fields, Datetime._days_in_month,
    Datetime.MINYEAR, Datetime.MAXYEAR.
  intros H Hy N.
  repeat (apply andb_true_iff in H as [H ?]).
  repeat (apply andb_true_iff; split); try (apply Z.leb_le; lia).
  apply Z.leb_le.
  match goal with H' : (d <=? _) = true |- _ => apply Z.leb_le in H' end.
  destruct (Z.eqb_spec m 2) as [->|M]; cbn [andb] in *.
  - destruct (Datetime._is_leap y), (Datetime._is_leap (y + 1));
      cbn [Datetime._DAYS_IN_MONTH] in *; lia.
  - assumption.
Qed.

(** The day count of a record born on today's month and day, when the
    clock is not at midnight. *)
Lemma birthday_today_is_next_year (today : Datetime.datetime) (year n : Z) :
  well_formed today -> ~ at_midnight today ->
  Datetime.year today < 9999 ->
  ~ (Datetime.month today = 2 /\ Datetime.day today = 29) ->
  n < 364 ->
  maindz.birthday_is_upcoming today
    (maindz.DateObject
       (Datetime.mk_date year (Datetime.month today) (Datetime.day today)))
    (maindz.DaysInt n)
  = Ok false.
Proof.
  destruct today as [y m d h mi s us].
  unfold well_formed, at_midnight.
  cbn [Datetime.year Datetime.month Datetime.day Datetime.hour Datetime.minute
       Datetime.second Datetime.microsecond].
  intros (Hc & Hh & Hmi & Hs & Hus) Hclock Hy Hfeb Hn.
  unfold maindz.birthday_is_upcoming.
  cbn [maindz.getattr_month maindz.getattr_day Datetime.date_month
       Datetime.date_day Datetime.year bind].
  unfold Datetime.new. rewrite Hc. cbn [bind].
  rewrite lt_midnight_same_day by (try lia; exact Hclock).
  rewrite (check_next_year y m d Hc Hy Hfeb). cbn [bind].
  unfold maindz.in_window, Datetime.sub, Datetime.timedelta_of_microseconds,
    Datetime.to_microseconds, Datetime.toordinal.
  cbn [Datetime.days Datetime.year Datetime.month Datetime.day Datetime.hour
       Datetime.minute Datetime.second Datetime.microsecond].
  pose proof (ordinal_next_year y m d) as O.
  set (o1 := Datetime._ymd2ord (y + 1) m d) in *.
  set (o0 := Datetime._ymd2ord y m d) in *.
  assert (T : ~ (h = 0 /\ mi = 0 /\ s = 0 /\ us = 0)) by exact Hclock.
  set (delta := (o1 * 86400 + (0 * 3600 + 0 * 60 + 0)) * 1000000 + 0
                - ((o0 * 86400 + (h * 3600 + mi * 60 + s)) * 1000000 + us)).
  assert (D : 364 <= delta / 86400000000).
  { apply Z.div_le_lower_bound; [lia|]. unfold delta. lia. }
  replace (0 <=? delta / 86400000000) with true
    by (symmetry; apply Z.leb_le; lia).
  replace (delta / 86400000000 <=? n) with false
    by (symmetry; apply Z.leb_gt; lia).
  reflexivity.
Qed.

(** X14: unless the clock is at midnight sharp, a record whose birthday
    is today (same month and day, held as a date, not February 29) is
    not reported for any window shorter than 364 days: its next
    birthday is taken to be next year's. *)
Theorem birthday_today_not_reported (today : Datetime.datetime)
  (address_book : maindz.AddressBook) (n : Z) (r : maindz.Record_)
  (l : list maindz.Record_)
  (Hwf : well_formed today)
  (Hclock : ~ at_midnight today)
  (Hyear : Datetime.year today < 9999)
  (Hfeb : ~ (Datetime.month today = 2 /\ Datetime.day today = 29))
  (Hn : n < 364)
  (Hborn : born_on r (Datetime.month today) (Datetime.day today))
  (Hq : maindz.get_upcoming_birthdays today address_book (maindz.DaysInt n) = Ok l) :
  ~ In r l.
Proof.
  intros Hin. destruct Hborn as [year Hb].
  destruct (upcoming_loop_In today (maindz.DaysInt n) _ l Hq) as [_ I].
  destruct (I r Hin) as [b [Hb' Hk]].
  rewrite Hb in Hb'. injection Hb' as <-.
  rewrite (birthday_today_is_next_year today year n Hwf Hclock Hyear Hfeb Hn) in Hk.
  discriminate.
Qed.

(** X14 at 10:00 on 2024-12-30 for a window of 300 days. *)
Lemma birthday_today_not_reported_example :
  maindz.get_upcoming_birthdays today_morning
    (book_of [record_jan2; record_dec30]) (maindz.DaysInt 300) = Ok [record_jan2]
  /\ ~ In record_dec30 [record_jan2].
Proof.
  split; [reflexivity|].
  apply (birthday_today_not_reported today_morning
           (book_of [record_jan2; record_dec30]) 300 record_dec30 [record_jan2]).
  - unfold well_formed. simpl. repeat split; try reflexivity; lia.
  - unfold at_midnight. simpl. intros [H _]. discriminate H.
  - simpl. lia.
  - simpl. intros [H _]. discriminate H.
  - lia.
  - now exists 1990.
  - reflexivity.
Defined.

Lemma upcoming_loop_keeps (today : Datetime.datetime) (days_count : maindz.days_value)
  (records l : list maindz.Record_) (r : maindz.Record_) (b : maindz.pyobject) :
  maindz.upcoming_loop today records days_count = Ok l ->
  In r records -> maindz.birthday r = Some b ->
  maindz.birthday_is_upcoming today b days_count = Ok true ->
  In r l.
Proof.
  revert l. induction records as [|record records IH]; intros l H Hin Hb Hk;
    [destruct Hin|].
  simpl in H.
  destruct (match maindz.birthday record with
            | Some b0 => maindz.birthday_is_upcoming today b0 days_count
            | None => Ok false
            end) as [keep|e] eqn:Ek; simpl in H; [|discriminate].
  destruct (maindz.upcoming_loop today records days_count) as [up|e] eqn:Eu;
    simpl in H; [|discriminate].
  injection H as <-. destruct Hin as [->|Hin].
  - rewrite Hb, Hk in Ek. injection Ek as <-. now left.
  - destruct keep; [right|]; now apply (IH up eq_refl Hin Hb Hk).
Qed.

Lemma lt_irrefl (dt : Datetime.datetime) : Datetime.lt dt dt = false.
Proof.
  unfold Datetime.lt.
  assert (R : forall l, Datetime._cmp l l = Eq).
  { induction l as [|x l IH]; simpl; [reflexivity|].
    now rewrite Z.compare_refl. }
  now rewrite R.
Qed.

(** X15: at midnight sharp a record whose birthday is today (same month
    and day, held as a date) is in every result that the query returns
    for a number of days that is not negative. *)
Theorem birthday_today_reported_at_midnight (today : Datetime.datetime)
  (address_book : maindz.AddressBook) (n : Z) (r : maindz.Record_)
  (l : list maindz.Record_)
  (Hwf : well_formed today)
  (Hclock : at_midnight today)
  (Hn : 0 <= n)
  (Hin : In r (maindz.values address_book))
  (Hborn : born_on r (Datetime.month today) (Datetime.day today))
  (Hq : maindz.get_upcoming_birthdays today address_book (maindz.DaysInt n) = Ok l) :
  In r l.
Proof.
  destruct Hborn as [year Hb].
  apply (upcoming_loop_keeps today (maindz.DaysInt n) _ l r _ Hq Hin Hb).
  destruct today as [y m d h mi s us].
  destruct Hwf as (Hc & _). destruct Hclock as (Hh & Hmi & Hs & Hus).
  cbn [Datetime.year Datetime.month Datetime.day Datetime.hour Datetime.minute
       Datetime.second Datetime.microsecond] in *.
  subst h mi s us.
  unfold maindz.birthday_is_upcoming.
  cbn [maindz.getattr_month maindz.getattr_day Datetime.date_month
       Datetime.date_day Datetime.year bind].
  unfold Datetime.new. rewrite Hc. cbn [bind].
  rewrite lt_irrefl. cbn [bind].
  unfold maindz.in_window, Datetime.sub, Datetime.timedelta_of_microseconds.
  rewrite Z.sub_diag. cbn [Datetime.days].
  change (0 / 86400000000) with 0. change (0 <=? 0) with true.
  cbv iota. f_equal. apply Z.leb_le. exact Hn.
Qed.

(** X15 at midnight of 2024-12-30 with 0 days. *)
Lemma birthday_today_reported_at_midnight_example :
  In record_dec30 [record_dec30].
Proof.
  apply (birthday_today_reported_at_midnight today_midnight
           (book_of [record_jan2; record_dec30]) 0 record_dec30 [record_dec30]).
  - unfold well_formed. simpl. repeat split; try reflexivity; lia.
  - unfold at_midnight. simpl. repeat split.
  - lia.
  - simpl. auto.
  - now exists 1990.
  - reflexivity.
Defined.

(** X16: on an address book in which no record has a birthday,
    [fun_upcoming_birthdays] ends without an exception whatever is
    typed: it prints the complaint about the input when the text is not
    an integer or is negative, and in every case goes on and reports
    that there are no upcoming birthdays, with the number read or, when
    none was read, the text as typed. *)
Theorem fun_upcoming_without_birthdays (today : Datetime.datetime)
  (address_book : maindz.AddressBook) (line : string)
  (Hnone : forall r, In r (maindz.values address_book) -> maindz.birthday r = None) :
  maindz.fun_upcoming_birthdays today address_book line
  = (match Py.int line with
     | Ok n =>
         List.app
           (if n <? 0
            then ["Invalid input. Please enter a non-negative integer."]
            else [])
           ["No upcoming birthdays within the next " ++ Py.str_of_int n
            ++ " days."]
     | Raise _ =>
         ["Invalid input. Please enter a non-negative integer.";
          "No upcoming birthdays within the next " ++ line ++ " days."]
     end, Ok tt).
Proof.
  unfold maindz.fun_upcoming_birthdays.
  destruct (Py.int line) as [n|e].
  - destruct (n <? 0);
      rewrite (get_upcoming_birthdays_no_birthday today address_book _ Hnone);
      reflexivity.
  - rewrite (get_upcoming_birthdays_no_birthday today address_book _ Hnone).
    reflexivity.
Qed.

(** X16 with the text "soon" and with the text " 7 ". *)
Lemma fun_upcoming_without_birthdays_example :
  maindz.fun_upcoming_birthdays today_morning (book_of [record_one_phone]) "soon"
  = (["Invalid input. Please enter a non-negative integer.";
      "No upcoming birthdays within the next soon days."], Ok tt)
  /\ maindz.fun_upcoming_birthdays today_morning (book_of [record_one_phone]) " 7 "
     = (["No upcoming birthdays within the next 7 days."], Ok tt).
Proof.
  split;
    apply (fun_upcoming_without_birthdays today_morning (book_of [record_one_phone]));
    intros r [<-|[]]; reflexivity.
Defined.

(** ** The commands: deleting a contact and adding notes *)

(** X17: [fun_delete_contact] deletes the contact named in the first
    line when it exists and the second line is exactly "yes", as the
    method [delete] does, and in every other case leaves the address
    book as it was; it never raises. *)
Theorem fun_delete_contact_needs_yes (address_book : maindz.AddressBook)
  (inputs : list string) :
  (forall contact_name rest,
     inputs = contact_name :: "yes" :: rest ->
     maindz.find address_book contact_name <> None ->
     maindz.fun_delete_contact address_book inputs
     = (maindz.delete address_book contact_name, ["Contact deleted"],
        maindz.Returned))
  /\ ((forall contact_name rest,
        inputs = contact_name :: "yes" :: rest ->
        maindz.find address_book contact_name = None) ->
      fst (fst (maindz.fun_delete_contact address_book inputs)) = address_book)
  /\ forall e, snd (maindz.fun_delete_contact address_book inputs)
               <> maindz.Raised e.
Proof.
  unfold maindz.fun_delete_contact, maindz.dict_in, maindz.find, maindz.delete.
  split; [|split].
  - intros contact_name rest -> F.
    destruct (maindz.dict_get (maindz.data address_book) contact_name);
      [reflexivity | contradiction].
  - intros H. destruct inputs as [|contact_name [|question rest]]; try reflexivity.
    + destruct (maindz.dict_get _ contact_name); reflexivity.
    + destruct (maindz.dict_get (maindz.data address_book) contact_name) eqn:E;
        [|reflexivity].
      destruct (String.eqb question "yes") eqn:Q; [|reflexivity].
      apply String.eqb_eq in Q. subst question.
      specialize (H contact_name rest eq_refl). unfold maindz.find in H.
      congruence.
  - intros e. destruct inputs as [|contact_name [|question rest]]; simpl;
      try discriminate.
    + destruct (maindz.dict_get _ contact_name); discriminate.
    + destruct (maindz.dict_get _ contact_name); [|discriminate].
      destruct (String.eqb question "yes"); discriminate.
Qed.

(** X17 on an address book with three contacts. *)
Lemma fun_delete_contact_needs_yes_example :
  maindz.fun_delete_contact book_three ["jan"; "yes"]
  = (maindz.delete book_three "jan", ["Contact deleted"], maindz.Returned)
  /\ fst (fst (maindz.fun_delete_contact book_three ["jan"; "Yes"])) = book_three.
Proof.
  split.
  - apply (proj1 (fun_delete_contact_needs_yes book_three ["jan"; "yes"])
             "jan" [] eq_refl).
    discriminate.
  - apply (proj1 (proj2 (fun_delete_contact_needs_yes book_three ["jan"; "Yes"]))).
    intros contact_name rest H. discriminate H.
Defined.

(** X18: [fun_add_note] stores the lines typed before the first line
    "c" or "C" as notes, in order, after the notes already there, and
    prints one confirmation for each; the contacts are not touched; it
    returns at that line, and goes on asking when there is none. *)
Theorem fun_add_note_until_c (address_book : maindz.AddressBook)
  (inputs : list string) :
  maindz.fun_add_note address_book inputs
  = (maindz.mk_AddressBook (maindz.data address_book)
       (maindz.mk_NoteManager
          (maindz.NoteManager_notes (maindz.notes_manager address_book)
           ++ map maindz.mk_Notes (before is_c_or_C inputs))%list),
     map (fun _ => "Note added successfully") (before is_c_or_C inputs),
     if existsb is_c_or_C inputs then maindz.Returned
     else maindz.InputExhausted).
Proof.
  revert address_book. induction inputs as [|note_text rest IH];
    intros [d [ns]].
  - simpl. now rewrite app_nil_r.
  - cbn [maindz.fun_add_note before existsb].
    change (String.eqb (Py.lower note_text) "c") with (is_c_or_C note_text).
    destruct (is_c_or_C note_text); cbn [orb map].
    + simpl. now rewrite app_nil_r.
    + rewrite IH. unfold maindz.NoteManager_add_note.
      cbn [maindz.data maindz.notes_manager maindz.NoteManager_notes].
      now rewrite <- app_assoc.
Qed.

(** ** The commands: adding a contact *)

Lemma set_phones_same (r : maindz.Record_) :
  maindz.set_phones r (maindz.phones r ++ [])%list = r.
Proof. destruct r. unfold maindz.set_phones. simpl. now rewrite app_nil_r. Qed.

Lemma read_phones_record (inputs : list string) : forall r : maindz.Record_,
  fst (maindz.read_phones r inputs)
  = maindz.set_phones r
      (maindz.phones r
       ++ map maindz.mk_Phone
            (filter maindz.Phone_is_valid_phone (before is_c inputs)))%list.
Proof.
  induction inputs as [|phone rest IH]; intros r.
  - simpl. now rewrite set_phones_same.
  - cbn [maindz.read_phones before].
    change (String.eqb phone "c") with (is_c phone).
    destruct (is_c phone).
    + simpl. now rewrite set_phones_same.
    + unfold maindz.add_phone, maindz.Phone__init__. cbn [filter].
      destruct (maindz.Phone_is_valid_phone phone); cbn [negb bind map].
      * rewrite IH. unfold maindz.set_phones. simpl.
        now rewrite <- app_assoc.
      * apply IH.
Qed.

Lemma read_phones_rest (typed rest : list string) : forall r : maindz.Record_,
  (forall p, In p typed -> p <> "c") ->
  snd (maindz.read_phones r (typed ++ "c" :: rest)) = inr rest.
Proof.
  induction typed as [|phone typed IH]; intros r H.
  - reflexivity.
  - cbn [app maindz.read_phones].
    destruct (String.eqb phone "c") eqn:E.
    + apply String.eqb_eq in E. exfalso. apply (H phone); [now left | exact E].
    + assert (H' : forall p, In p typed -> p <> "c")
        by (intros p Hp; apply H; now right).
      unfold maindz.add_phone, maindz.Phone__init__.
      destruct (maindz.Phone_is_valid_phone phone); cbn [negb bind];
        now apply IH.
Qed.

Lemma set_birthday_of_object_raises (r : maindz.Record_) (b : maindz.pyobject) :
  maindz.set_birthday_of_object r b = Raise TypeError.
Proof. reflexivity. Qed.

Lemma read_birthday_record (inputs : list string) (r : maindz.Record_) :
  fst (maindz.read_birthday r inputs) = r.
Proof.
  induction inputs as [|line rest IH]; [reflexivity|].
  cbn [maindz.read_birthday].
  destruct (String.eqb line "c"); [reflexivity|].
  destruct (Datetime.strptime_Ymd line) as [dt|e] eqn:E; cbn [bind].
  - reflexivity.
  - apply strptime_raises_ValueError in E.
    destruct e; try discriminate E. exact IH.
Qed.

Lemma same_identity_refl (r : maindz.Record_) : same_identity r r.
Proof. repeat split. intros e H. now left. Qed.

Lemma read_email_record (inputs : list string) (r : maindz.Record_) :
  same_identity r (fst (maindz.read_email r inputs)).
Proof.
  induction inputs as [|line rest IH]; [apply same_identity_refl|].
  cbn [maindz.read_email].
  destruct (String.eqb line "c"); [apply same_identity_refl|].
  unfold maindz.add_email, maindz.Email__init__, maindz.Email_is_valid_email.
  destruct (Py.contains "@" line) eqn:E; cbn [negb bind].
  - repeat split. simpl. intros e H. injection H as <-. now right.
  - exact IH.
Qed.

Lemma read_address_record (inputs : list string) (r : maindz.Record_) :
  same_identity r (fst (maindz.read_address r inputs)).
Proof.
  destruct inputs as [|line rest]; [apply same_identity_refl|].
  simpl. destruct (String.eqb line "c"); [apply same_identity_refl|].
  repeat split. intros e H. now left.
Qed.

Lemma same_identity_trans (r1 r2 r3 : maindz.Record_) :
  same_identity r1 r2 -> same_identity r2 r3 -> same_identity r1 r3.
Proof.
  intros (N1 & P1 & B1 & E1) (N2 & P2 & B2 & E2).
  repeat split; try congruence.
  intros e H. destruct (E2 e H) as [H'|H']; [now apply E1 | now right].
Qed.

Lemma read_contact_record (inputs : list string) (r : maindz.Record_) :
  same_identity (fst (maindz.read_phones r inputs))
                (fst (maindz.read_contact r inputs)).
Proof.
  unfold maindz.read_contact.
  destruct (maindz.read_phones r inputs) as [r1 [e|in1]]; cbn [fst];
    [apply same_identity_refl|].
  pose proof (read_birthday_record in1 r1) as B.
  destruct (maindz.read_birthday r1 in1) as [r2 [e|in2]]; cbn [fst] in *;
    subst r2; [apply same_identity_refl|].
  pose proof (read_email_record in2 r1) as E.
  destruct (maindz.read_email r1 in2) as [r3 [e|in3]]; cbn [fst] in *;
    [exact E|].
  apply (same_identity_trans r1 r3 _ E). apply read_address_record.
Qed.

(** X19: whatever is typed, [fun_add_contact] leaves under [name] a
    record with that name whose phones are the valid ones among the
    lines typed before the first "c", in order, with no birthday, and
    with an email that, if set, contains an [@]; a record stored under
    that name before is replaced; the other contacts and the notes are
    as before. *)
Theorem fun_add_contact_record (address_book : maindz.AddressBook)
  (name : string) (inputs : list string) :
  let book := fst (maindz.fun_add_contact address_book name inputs) in
  (exists r,
     maindz.find book name = Some r
     /\ maindz.Name_value (maindz.name r) = name
     /\ maindz.phones r
        = map maindz.mk_Phone
            (filter maindz.Phone_is_valid_phone (before is_c inputs))
     /\ Forall valid_phone (maindz.phones r)
     /\ maindz.birthday r = None
     /\ forall e, maindz.email r = Some e ->
                  Py.contains "@" (maindz.Email_value e) = true)
  /\ (forall k, k <> name -> maindz.find book k = maindz.find address_book k)
  /\ maindz.notes_manager book = maindz.notes_manager address_book.
Proof.
  unfold maindz.fun_add_contact.
  pose proof (read_contact_record inputs (maindz.Record__init__ name))
    as (N & P & B & E).
  rewrite read_phones_record in N, P, B, E.
  destruct (maindz.read_contact (maindz.Record__init__ name) inputs) as [r e].
  cbn [fst] in *.
  destruct (setitem_then_find address_book name r) as [F1 F2].
  split; [|split; [exact F2 | reflexivity]].
  exists r. split; [exact F1|].
  split; [now rewrite N|]. split; [exact P|]. split.
  - rewrite P. simpl. apply Forall_forall. intros p Hp.
    apply in_map_iff in Hp as [v [<- Hv]]. apply filter_In in Hv as [_ Hv].
    exact Hv.
  - split; [exact B|]. intros e' He'.
    destruct (E e' He') as [H|H]; [discriminate H | exact H].
Qed.

(** X20: a line that parses as a date, typed at the birthday prompt of
    [fun_add_contact], ends the command with [TypeError]: the command
    gives [set_birthday] the date it has parsed, not the text. *)
Theorem fun_add_contact_date_raises (address_book : maindz.AddressBook)
  (name : string) (typed_phones rest : list string) (line : string)
  (dt : Datetime.datetime)
  (Hphones : forall p, In p typed_phones -> p <> "c")
  (Hdate : Datetime.strptime_Ymd line = Ok dt) :
  snd (maindz.fun_add_contact address_book name
         (typed_phones ++ "c" :: line :: rest))
  = maindz.Raised TypeError.
Proof.
  unfold maindz.fun_add_contact, maindz.read_contact.
  pose proof (read_phones_rest typed_phones (line :: rest)
                (maindz.Record__init__ name) Hphones) as R.
  destruct (maindz.read_phones (maindz.Record__init__ name)
              (typed_phones ++ "c" :: line :: rest)) as [r1 x].
  cbn [snd] in R. subst x. cbn [maindz.read_birthday].
  destruct (String.eqb line "c") eqn:E.
  - apply String.eqb_eq in E. subst line. vm_compute in Hdate. discriminate Hdate.
  - rewrite Hdate. reflexivity.
Qed.

(** X20 with one phone typed and the date 2000-01-02. *)
Lemma fun_add_contact_date_raises_example :
  snd (maindz.fun_add_contact maindz.AddressBook__init__ "ann"
         ["0123456789"; "c"; "2000-01-02"])
  = maindz.Raised TypeError.
Proof.
  apply (fun_add_contact_date_raises maindz.AddressBook__init__ "ann"
           ["0123456789"] [] "2000-01-02"
           (Datetime.mk_datetime 2000 1 2 0 0 0 0)).
  - intros p [<-|[]]. discriminate.
  - reflexivity.
Defined.

(** ** The commands: editing a contact *)

Lemma dict_get_In (d : list (string * maindz.Record_)) (key : string)
  (r : maindz.Record_) :
  maindz.dict_get d key = Some r -> In key (map fst d).
Proof.
  induction d as [|[k w] d IH]; simpl; [discriminate|].
  destruct (String.eqb k key) eqn:E.
  - apply String.eqb_eq in E. now left.
  - intros H. right. now apply IH.
Qed.

Lemma dict_set_get_same (d : list (string * maindz.Record_)) (key : string)
  (r : maindz.Record_) :
  maindz.dict_get d key = Some r -> maindz.dict_set d key r = d.
Proof.
  induction d as [|[k w] d IH]; simpl; [discriminate|].
  destruct (String.eqb k key) eqn:E.
  - intros H. injection H as <-. reflexivity.
  - intros H. now rewrite IH.
Qed.

Lemma try_edit_keeps (c : maindz.Record_) (r : result maindz.Record_)
  (continue : maindz.Record_ -> maindz.Record_ * list string * maindz.ending) :
  (forall c', r = Ok c' ->
     maindz.name c' = maindz.name c /\ maindz.birthday c' = maindz.birthday c) ->
  (forall c',
     maindz.name (fst (fst (continue c'))) = maindz.name c'
     /\ maindz.birthday (fst (fst (continue c'))) = maindz.birthday c') ->
  maindz.name (fst (fst (maindz.try_edit c r continue))) = maindz.name c
  /\ maindz.birthday (fst (fst (maindz.try_edit c r continue))) = maindz.birthday c.
Proof.
  intros Hr Hc. unfold maindz.try_edit. destruct r as [c'|e].
  - destruct (Hr c' eq_refl) as [N B]. destruct (Hc c') as [N' B'].
    split; congruence.
  - destruct e; try (split; reflexivity).
    specialize (Hc c). destruct (continue c) as [[c0 out] e]. exact Hc.
Qed.

Lemma edit_loop_keeps (n : nat) : forall (inputs : list string) (c : maindz.Record_),
  (List.length inputs <= n)%nat ->
  maindz.name (fst (fst (maindz.edit_loop c inputs))) = maindz.name c
  /\ maindz.birthday (fst (fst (maindz.edit_loop c inputs))) = maindz.birthday c.
Proof.
  induction n as [|n IH]; intros inputs c L.
  - destruct inputs; [split; reflexivity | simpl in L; lia].
  - destruct inputs as [|edit rest]; [split; reflexivity|].
    simpl in L. cbn [maindz.edit_loop].
    destruct (String.eqb (Py.lower edit) "c"); [split; reflexivity|].
    destruct (String.eqb edit "phone").
    { destruct rest as [|new_phone rest']; [split; reflexivity|].
      simpl in L. apply try_edit_keeps; [|intros c'; apply IH; lia].
      intros c' H. unfold maindz.first_phone_value, maindz.edit_phone in H.
      destruct (maindz.phones c); [discriminate H|]. cbn [bind] in H.
      destruct (maindz.edit_phone_loop _ _ _); [|discriminate H].
      injection H as <-. split; reflexivity. }
    destruct (String.eqb edit "birthday").
    { destruct rest as [|line rest']; [split; reflexivity|].
      simpl in L. apply try_edit_keeps; [|intros c'; apply IH; lia].
      intros c' H. destruct (Datetime.strptime_Ymd line); discriminate H. }
    destruct (String.eqb edit "address").
    { destruct rest as [|new_address rest']; [split; reflexivity|].
      simpl in L.
      destruct (IH rest' (maindz.set_address c new_address) ltac:(lia)) as [N B].
      split; [rewrite N | rewrite B]; reflexivity. }
    destruct (String.eqb edit "email").
    { destruct rest as [|new_email rest']; [split; reflexivity|].
      simpl in L. apply try_edit_keeps; [|intros c'; apply IH; lia].
      intros c' H. unfold maindz.edit_email in H.
      destruct (negb _); [discriminate H|].
      destruct (maindz.email c); [|discriminate H].
      injection H as <-. split; reflexivity. }
    destruct (IH rest c ltac:(lia)) as [N B].
    destruct (maindz.edit_loop c rest) as [[c0 out] e]. split; assumption.
Qed.

Lemma find_contents (book : maindz.SharedBook) (k : string) :
  maindz.find (maindz.contents book) k
  = option_map (maindz.object_at book) (maindz.entries_get (maindz.entries book) k).
Proof.
  unfold maindz.find, maindz.contents. cbn [maindz.data].
  induction (maindz.entries book) as [|[k0 a] l IH]; simpl; [reflexivity|].
  destruct (String.eqb k0 k); [reflexivity | exact IH].
Qed.

(** X21: whatever is typed, [fun_edit_contact] adds no contact, removes
    none, moves none and makes no key hold another object, and it
    leaves the notes alone; the only record object that can change is
    the one found under the name typed first, so a contact changes only
    if it holds that object; and no record changes its name or its
    birthday. *)
Theorem fun_edit_contact_keeps_contacts (address_book : maindz.SharedBook)
  (inputs : list string) :
  let book := fst (fst (maindz.fun_edit_contact_shared address_book inputs)) in
  maindz.entries book = maindz.entries address_book
  /\ maindz.keys (maindz.contents book) = maindz.keys (maindz.contents address_book)
  /\ maindz.shared_notes_manager book = maindz.shared_notes_manager address_book
  /\ (forall a,
      (forall contact_name, hd_error inputs = Some contact_name ->
         maindz.entries_get (maindz.entries address_book) contact_name <> Some a) ->
      maindz.object_at book a = maindz.object_at address_book a)
  /\ (forall k a,
      maindz.entries_get (maindz.entries address_book) k = Some a ->
      (forall contact_name, hd_error inputs = Some contact_name ->
         maindz.entries_get (maindz.entries address_book) contact_name <> Some a) ->
      maindz.find (maindz.contents book) k
      = maindz.find (maindz.contents address_book) k)
  /\ (forall a,
      maindz.name (maindz.object_at book a)
      = maindz.name (maindz.object_at address_book a)
      /\ maindz.birthday (maindz.object_at book a)
         = maindz.birthday (maindz.object_at address_book a)).
Proof.
  cbv zeta.
  assert (G : maindz.entries
                (fst (fst (maindz.fun_edit_contact_shared address_book inputs)))
              = maindz.entries address_book
              /\ maindz.shared_notes_manager
                   (fst (fst (maindz.fun_edit_contact_shared address_book inputs)))
                 = maindz.shared_notes_manager address_book
              /\ (forall a,
                  (forall contact_name, hd_error inputs = Some contact_name ->
                     maindz.entries_get (maindz.entries address_book) contact_name
                     <> Some a) ->
                  maindz.object_at
                    (fst (fst (maindz.fun_edit_contact_shared address_book inputs))) a
                  = maindz.object_at address_book a)
              /\ (forall a,
                  maindz.name
                    (maindz.object_at
                       (fst (fst (maindz.fun_edit_contact_shared address_book inputs)))
                       a)
                  = maindz.name (maindz.object_at address_book a)
                  /\ maindz.birthday
                       (maindz.object_at
                          (fst (fst (maindz.fun_edit_contact_shared address_book
                                       inputs))) a)
                     = maindz.birthday (maindz.object_at address_book a))).
  { unfold maindz.fun_edit_contact_shared.
    destruct inputs as [|contact_name rest]; [cbn [fst]; repeat split|].
    destruct (maindz.entries_get (maindz.entries address_book) contact_name)
      as [a0|] eqn:G; [|cbn [fst]; repeat split].
    destruct (edit_loop_keeps (List.length rest) rest
                (maindz.object_at address_book a0) (le_n _)) as [N B].
    destruct (maindz.edit_loop (maindz.object_at address_book a0) rest)
      as [[c out] e].
    cbn [fst maindz.entries maindz.shared_notes_manager maindz.object_at] in *.
    split; [reflexivity|]. split; [reflexivity|]. split.
    - intros a H. unfold maindz.set_object.
      destruct (Nat.eqb_spec a a0) as [->|_]; [|reflexivity].
      exfalso. apply (H contact_name eq_refl). exact G.
    - intros a. unfold maindz.set_object.
      destruct (Nat.eqb_spec a a0) as [->|_]; split; auto. }
  destruct G as (E & N & O & I).
  split; [exact E|]. split.
  - unfold maindz.keys, maindz.contents. cbn [maindz.data].
    rewrite E, !map_map. reflexivity.
  - split; [exact N|]. split; [exact O|]. split; [|exact I].
    intros k a Hk Ha. rewrite !find_contents, E, Hk. cbn [option_map].
    now rewrite (O a Ha).
Qed.

Lemma setitem_same (address_book : maindz.AddressBook) (key : string)
  (r : maindz.Record_) :
  maindz.find address_book key = Some r ->
  maindz.AddressBook__setitem__ address_book key r = address_book.
Proof.
  unfold maindz.find, maindz.AddressBook__setitem__. intros H.
  rewrite (dict_set_get_same _ _ _ H). now destruct address_book.
Qed.

(** X22: three edits end [fun_edit_contact] with an exception that its
    handler does not catch, the contact being left as it was: "phone"
    for a contact without phones ([IndexError]), "email" with an
    address containing [@] for a contact without an email
    ([AttributeError]), and "birthday" with a line that parses as a
    date ([TypeError]). *)
Theorem fun_edit_contact_uncaught (address_book : maindz.AddressBook)
  (contact_name line : string) (rest : list string) (c : maindz.Record_)
  (Hfind : maindz.find address_book contact_name = Some c) :
  (maindz.phones c = [] ->
   maindz.fun_edit_contact address_book (contact_name :: "phone" :: line :: rest)
   = (address_book, ["Contact found"], maindz.Raised IndexError))
  /\ (maindz.email c = None -> Py.contains "@" line = true ->
      maindz.fun_edit_contact address_book (contact_name :: "email" :: line :: rest)
      = (address_book, ["Contact found"], maindz.Raised AttributeError))
  /\ ((exists dt, Datetime.strptime_Ymd line = Ok dt) ->
      maindz.fun_edit_contact address_book
        (contact_name :: "birthday" :: line :: rest)
      = (address_book, ["Contact found"], maindz.Raised TypeError)).
Proof.
  pose proof (setitem_same address_book contact_name c Hfind) as S.
  unfold maindz.find in Hfind.
  unfold maindz.fun_edit_contact. rewrite Hfind.
  split; [|split].
  - intros P. cbn [maindz.edit_loop]. simpl (String.eqb _ _). cbv iota.
    unfold maindz.first_phone_value. rewrite P. cbn [bind maindz.try_edit].
    now rewrite S.
  - intros E C. cbn [maindz.edit_loop]. simpl (String.eqb _ _). cbv iota.
    unfold maindz.edit_email, maindz.Email_is_valid_email.
    rewrite C, E. cbn [negb maindz.try_edit]. now rewrite S.
  - intros [dt D]. cbn [maindz.edit_loop]. simpl (String.eqb _ _). cbv iota.
    rewrite D. cbn [bind]. rewrite set_birthday_of_object_raises.
    cbn [maindz.try_edit]. now rewrite S.
Qed.

(** X22 on an address book with three contacts. *)
Lemma fun_edit_contact_uncaught_example :
  maindz.fun_edit_contact book_three ["jan"; "phone"; "0123456789"]
  = (book_three, ["Contact found"], maindz.Raised IndexError)
  /\ maindz.fun_edit_contact book_three ["jan"; "email"; "jan@mail.org"; "c"]
     = (book_three, ["Contact found"], maindz.Raised AttributeError)
  /\ maindz.fun_edit_contact book_three ["jan"; "birthday"; "2000-01-02"; "c"]
     = (book_three, ["Contact found"], maindz.Raised TypeError).
Proof.
  split; [|split].
  - apply (proj1 (fun_edit_contact_uncaught book_three "jan" "0123456789" []
                    record_jan2 eq_refl)).
    reflexivity.
  - apply (proj1 (proj2 (fun_edit_contact_uncaught book_three "jan" "jan@mail.org"
                           ["c"] record_jan2 eq_refl))); reflexivity.
  - apply (proj2 (proj2 (fun_edit_contact_uncaught book_three "jan" "2000-01-02"
                           ["c"] record_jan2 eq_refl))).
    eexists. reflexivity.
Defined.

(** X23: the edit "phone" of [fun_edit_contact] puts the line typed,
    whatever it is, in the place of the first phone of the record object
    found under the name typed; the other phones and fields of that
    object stay; every key that holds that object shows the new phone,
    and every key that holds another object finds its record as
    before. *)
Theorem fun_edit_contact_phone (address_book : maindz.SharedBook)
  (contact_name new_phone : string) (rest : list string) (a : nat)
  (p : maindz.Phone) (ps : list maindz.Phone)
  (Hfind : maindz.entries_get (maindz.entries address_book) contact_name = Some a)
  (Hphones : maindz.phones (maindz.object_at address_book a) = p :: ps) :
  let edited :=
    maindz.set_phones (maindz.object_at address_book a)
                      (maindz.mk_Phone new_phone :: ps) in
  let book :=
    maindz.mk_SharedBook (maindz.entries address_book)
      (maindz.set_object (maindz.object_at address_book) a edited)
      (maindz.shared_notes_manager address_book) in
  maindz.fun_edit_contact_shared address_book
    (contact_name :: "phone" :: new_phone :: "c" :: rest)
  = (book, ["Contact found"], maindz.Returned)
  /\ (forall k,
      maindz.entries_get (maindz.entries address_book) k = Some a ->
      maindz.find (maindz.contents book) k = Some edited)
  /\ (forall k b,
      maindz.entries_get (maindz.entries address_book) k = Some b -> b <> a ->
      maindz.find (maindz.contents book) k
      = Some (maindz.object_at address_book b)).
Proof.
  cbv zeta. split; [|split].
  - unfold maindz.fun_edit_contact_shared. rewrite Hfind.
    cbn [maindz.edit_loop]. simpl (String.eqb _ _). cbv iota.
    unfold maindz.first_phone_value, maindz.edit_phone. rewrite Hphones.
    cbn [bind maindz.edit_phone_loop]. rewrite String.eqb_refl.
    cbn [maindz.try_edit maindz.edit_loop]. simpl (String.eqb _ _). cbv iota.
    reflexivity.
  - intros k Hk. rewrite find_contents. cbn [maindz.entries maindz.object_at].
    rewrite Hk. cbn [option_map]. unfold maindz.set_object.
    now rewrite Nat.eqb_refl.
  - intros k b Hk Hb. rewrite find_contents. cbn [maindz.entries maindz.object_at].
    rewrite Hk. cbn [option_map]. unfold maindz.set_object.
    destruct (Nat.eqb_spec b a); [contradiction | reflexivity].
Qed.

(** X23 with a line that is not a phone number, on an address book in
    which two keys hold the record edited. *)
Lemma fun_edit_contact_phone_example :
  let edited := maindz.set_phones record_one_phone [maindz.mk_Phone "bad"] in
  fst (maindz.fun_edit_contact_shared book_shared ["home"; "phone"; "bad"; "c"])
  = (maindz.mk_SharedBook (maindz.entries book_shared)
       (maindz.set_object (maindz.object_at book_shared) 0 edited)
       maindz.NoteManager__init__,
     ["Contact found"])
  /\ maindz.find
       (maindz.contents
          (fst (fst (maindz.fun_edit_contact_shared book_shared
                       ["home"; "phone"; "bad"; "c"])))) "work"
     = Some edited
  /\ maindz.find
       (maindz.contents
          (fst (fst (maindz.fun_edit_contact_shared book_shared
                       ["home"; "phone"; "bad"; "c"])))) "jan"
     = Some record_jan2.
Proof.
  cbv zeta.
  destruct (fun_edit_contact_phone book_shared "home" "bad" [] 0
              (maindz.mk_Phone "0123456789") [] eq_refl eq_refl)
    as (E & S & O).
  rewrite E. cbn [fst]. split; [reflexivity|]. split.
  - apply (S "work"). reflexivity.
  - apply (O "jan" 1%nat); [reflexivity | discriminate].
Defined.

Lemma own_entries (d : list (string * maindz.Record_)) :
  forall (s : nat) (f : nat -> maindz.Record_),
  (forall j, (j < List.length d)%nat ->
     f (s + j)%nat = nth j (map snd d) (maindz.Record__init__ EmptyString)) ->
  map (fun e => (fst e, f (snd e)))
      (combine (map fst d) (seq s (List.length d))) = d.
Proof.
  induction d as [|[k v] d IH]; intros s f H; [reflexivity|].
  cbn [List.length seq map combine fst snd]. f_equal.
  - f_equal. specialize (H 0%nat ltac:(simpl; lia)).
    rewrite Nat.add_0_r in H. exact H.
  - apply IH. intros j Hj. specialize (H (S j) ltac:(simpl; lia)).
    rewrite Nat.add_succ_r in H. exact H.
Qed.

Lemma own_entries_set (d : list (string * maindz.Record_)) (key : string)
  (c : maindz.Record_) :
  forall (s : nat) (f : nat -> maindz.Record_),
  (forall j, (j < List.length d)%nat ->
     f (s + j)%nat = nth j (map snd d) (maindz.Record__init__ EmptyString)) ->
  match maindz.entries_get (combine (map fst d) (seq s (List.length d))) key with
  | Some a =>
      maindz.dict_get d key = Some (f a)
      /\ (s <= a)%nat
      /\ map (fun e => (fst e, maindz.set_object f a c (snd e)))
             (combine (map fst d) (seq s (List.length d)))
         = maindz.dict_set d key c
  | None => maindz.dict_get d key = None
  end.
Proof.
  induction d as [|[k v] d IH]; intros s f H; [reflexivity|].
  assert (H0 : f s = v).
  { specialize (H 0%nat ltac:(simpl; lia)). rewrite Nat.add_0_r in H. exact H. }
  assert (HS : forall j, (j < List.length d)%nat ->
                 f (S s + j)%nat
                 = nth j (map snd d) (maindz.Record__init__ EmptyString)).
  { intros j Hj. specialize (H (S j) ltac:(simpl; lia)).
    rewrite Nat.add_succ_r in H. exact H. }
  cbn [List.length seq map combine fst snd maindz.entries_get maindz.dict_get
       maindz.dict_set].
  destruct (String.eqb k key) eqn:E.
  - split; [now rewrite H0|]. split; [lia|].
    cbn [map fst snd]. f_equal.
    + unfold maindz.set_object. now rewrite Nat.eqb_refl.
    + apply own_entries. intros j Hj. unfold maindz.set_object.
      destruct (Nat.eqb_spec (S s + j) s); [lia|]. now apply HS.
  - specialize (IH (S s) f HS).
    destruct (maindz.entries_get (combine (map fst d) (seq (S s) (List.length d))) key)
      as [a|]; [|exact IH].
    destruct IH as (G & L & M). split; [exact G|]. split; [lia|].
    cbn [map fst snd]. f_equal; [|exact M].
    f_equal. unfold maindz.set_object.
    destruct (Nat.eqb_spec s a); [lia | exact H0].
Qed.

Lemma contents_own_objects (address_book : maindz.AddressBook) :
  maindz.contents (maindz.own_objects address_book) = address_book.
Proof.
  destruct address_book as [d nm].
  unfold maindz.contents, maindz.own_objects, maindz.keys, maindz.values.
  cbn [maindz.entries maindz.object_at maindz.shared_notes_manager maindz.data
       maindz.notes_manager].
  f_equal.
  apply (own_entries d 0
           (fun a => nth a (map snd d) (maindz.Record__init__ EmptyString))).
  intros j _. reflexivity.
Qed.

(** The command on an address book without shared objects: the
    definition that writes the edited record back under the name typed
    agrees with the command on the address book in which every key
    holds an object of its own. *)
Lemma fun_edit_contact_own_objects (address_book : maindz.AddressBook)
  (inputs : list string) :
  maindz.fun_edit_contact address_book inputs
  = let '(book, out, e) :=
      maindz.fun_edit_contact_shared (maindz.own_objects address_book) inputs in
    (maindz.contents book, out, e).
Proof.
  unfold maindz.fun_edit_contact, maindz.fun_edit_contact_shared.
  destruct inputs as [|contact_name rest].
  { now rewrite contents_own_objects. }
  destruct address_book as [d nm].
  unfold maindz.own_objects, maindz.keys, maindz.values.
  cbn [maindz.entries maindz.object_at maindz.shared_notes_manager maindz.data
       maindz.notes_manager].
  set (f := fun a => nth a (map snd d) (maindz.Record__init__ EmptyString)).
  pose proof (fun c => own_entries_set d contact_name c 0 f
                         (fun j _ => eq_refl)) as H.
  destruct (maindz.entries_get (combine (map fst d) (seq 0 (List.length d)))
              contact_name) as [a|] eqn:G.
  - destruct (H (maindz.Record__init__ EmptyString)) as (Gd & _ & _).
    rewrite Gd.
    change (nth a (map snd d) (maindz.Record__init__ EmptyString)) with (f a).
    destruct (maindz.edit_loop (f a) rest) as [[c out] e].
    destruct (H c) as (_ & _ & M).
    unfold maindz.contents, maindz.AddressBook__setitem__.
    cbn [maindz.entries maindz.object_at maindz.shared_notes_manager maindz.data
         maindz.notes_manager].
    now rewrite M.
  - rewrite (H (maindz.Record__init__ EmptyString)).
    unfold maindz.contents.
    cbn [maindz.entries maindz.object_at maindz.shared_notes_manager].
    f_equal. f_equal. f_equal. symmetry.
    apply (own_entries d 0 f). intros j _. reflexivity.
Qed.

(** ** Storing a contact and searching for it *)

Lemma prefix_refl (s : string) : String.prefix s s = true.
Proof.
  induction s as [|c s IH]; simpl; [reflexivity|].
  destruct (ascii_dec c c) as [_|N]; [exact IH | contradiction].
Qed.

Lemma contains_refl (s : string) : Py.contains s s = true.
Proof. destruct s; cbn [Py.contains]; now rewrite prefix_refl. Qed.

Lemma dict_set_In (d : list (string * maindz.Record_)) (key : string)
  (r : maindz.Record_) :
  In (key, r) (maindz.dict_set d key r).
Proof.
  induction d as [|[k w] d IH]; simpl; [now left|].
  destruct (String.eqb k key) eqn:E.
  - apply String.eqb_eq in E. subst k. now left.
  - now right.
Qed.

(** X24: a contact stored under a name that does not start with a
    digit is found by a search for that name; a contact stored under a
    name that starts with a digit is not found by it when it has no
    phone, because such a query is looked for in the phones only. *)
Theorem search_after_setitem (address_book : maindz.AddressBook) (name : string)
  (r : maindz.Record_) :
  exists results,
    maindz.search (maindz.AddressBook__setitem__ address_book name r) name
    = Ok results
    /\ (starts_with_digit name = false -> In r results)
    /\ (starts_with_digit name = true -> maindz.phones r = [] -> ~ In r results).
Proof.
  destruct (search_two_modes (maindz.AddressBook__setitem__ address_book name r) name)
    as [Hn Hp].
  destruct (starts_with_digit name) eqn:D.
  - destruct (Hp eq_refl) as [results [E I]].
    exists results. split; [exact E|]. split; [discriminate|].
    intros _ P Hin. apply I in Hin as [_ [phone [Hphone _]]].
    rewrite P in Hphone. destruct Hphone.
  - eexists. split; [apply Hn; reflexivity|]. split; [|discriminate].
    intros _. apply in_map_iff. exists (name, r). split; [reflexivity|].
    apply filter_In. split.
    + apply dict_set_In.
    + unfold name_matches. apply contains_refl.
Qed.

(** ** NoteManager.edit_note, then delete_note *)

Lemma set_nth_length {A : Type} (f : A -> A) (l : list A) : forall i : nat,
  List.length (dop2.set_nth l i f) = List.length l.
Proof.
  induction l as [|x l IH]; intros i; [reflexivity|].
  destruct i; simpl; [reflexivity | now rewrite IH].
Qed.

Lemma set_nth_nth_error {A : Type} (f : A -> A) (l : list A) : forall i : nat,
  nth_error (dop2.set_nth l i f) i = option_map f (nth_error l i).
Proof.
  induction l as [|x l IH]; intros i; [now destruct i|].
  destruct i; simpl; [reflexivity | apply IH].
Qed.

Lemma set_nth_firstn {A : Type} (f : A -> A) (l : list A) : forall i : nat,
  firstn i (dop2.set_nth l i f) = firstn i l.
Proof.
  induction l as [|x l IH]; intros i; [now destruct i|].
  destruct i; simpl; [reflexivity | now rewrite IH].
Qed.

Lemma set_nth_skipn {A : Type} (f : A -> A) (l : list A) : forall i : nat,
  skipn (S i) (dop2.set_nth l i f) = skipn (S i) l.
Proof.
  induction l as [|x l IH]; intros i; [now destruct i|].
  destruct i; [reflexivity|]. cbn [dop2.set_nth]. 
  change (skipn (S (S i)) (x :: dop2.set_nth l i f))
    with (skipn (S i) (dop2.set_nth l i f)).
  change (skipn (S (S i)) (x :: l)) with (skipn (S i) l).
  apply IH.
Qed.

(** X25: [edit_note] within [1..n] without new tags leaves the tags of
    the note at [None]; [delete_note] at the same index then removes the
    note, keeps the others in order, prints nothing and raises
    [TypeError], because the message needs the tags joined. *)
Theorem delete_after_edit_without_tags (self : dop2.NoteManager) (index : Z)
  (new_text : option string)
  (Hindex : 1 <= index <= Z.of_nat (List.length (dop2.notes self))) :
  let edited := fst (dop2.edit_note self index new_text None) in
  snd (dop2.edit_note self index new_text None)
  = ["Note " ++ Py.str_of_int index ++ " edited successfully."]
  /\ List.length (dop2.notes edited) = List.length (dop2.notes self)
  /\ dop2.delete_note edited index
     = dop2.mk_outcome
         (dop2.mk_NoteManager
            (firstn (Z.to_nat (index - 1)) (dop2.notes self)
             ++ skipn (Z.to_nat index) (dop2.notes self))%list)
         [] (Raise TypeError).
Proof.
  cbv zeta. unfold dop2.edit_note.
  replace ((1 <=? index) && (index <=? Z.of_nat (List.length (dop2.notes self))))
    with true by (symmetry; apply andb_true_iff; split; apply Z.leb_le; lia).
  cbn [fst snd dop2.notes]. split; [reflexivity|].
  split; [apply set_nth_length|].
  destruct (nth_error_in_range (dop2.notes self) (Z.to_nat (index - 1)))
    as [note Hn]; [lia|].
  unfold dop2.delete_note. cbn [dop2.notes]. rewrite set_nth_length.
  replace ((1 <=? index) && (index <=? Z.of_nat (List.length (dop2.notes self))))
    with true by (symmetry; apply andb_true_iff; split; apply Z.leb_le; lia).
  unfold dop2.pop. rewrite set_nth_nth_error, Hn. cbn [option_map].
  rewrite set_nth_firstn, set_nth_skipn.
  replace (S (Z.to_nat (index - 1))) with (Z.to_nat index) by lia.
  reflexivity.
Qed.

(** X25 on the store that holds the note of alice. *)
Lemma delete_after_edit_without_tags_example :
  dop2.delete_note (fst (dop2.edit_note alice_store 1 (Some "hello") None)) 1
  = dop2.mk_outcome dop2.NoteManager__init__ [] (Raise TypeError).
Proof.
  apply (delete_after_edit_without_tags alice_store 1 (Some "hello")).
  simpl. lia.
Defined.
